(** * uiautomator2/image.py: image ingestion and the locate-and-click loop

    A shallow embedding of [src/uiautomator2/image.py].  The Python code
    talks to a clock, a file system, the network, a device and the findit
    matcher.  Those collaborators are gathered in an environment record
    [Env]; every call the code makes to one of them is appended to a trace,
    so that statements such as "the click primitive is invoked once" or "no
    frame is captured" become statements about the trace.

    Time stamps, time-outs and thresholds are finite floats, written as
    rationals [Q] ([0.8], [0.9] and [.1] are [8#10], [9#10] and [1#10]);
    the float sum and difference the code computes on them are operations
    of the environment, since they round.  A similarity score is whatever
    float the matcher hands back, NaN included: [pyfloat].  The doubles
    [0.8] and [0.9] lie just above 8/10 and 9/10 with no double in between,
    so a double is below the one exactly when it is below the other. *)

From Stdlib Require Import ZArith QArith List String Ascii Bool Lia Arith.
Import ListNotations.

Set Implicit Arguments.

(** ** Python values handled by the module *)

(** A numpy image: height x width x channel, unsigned 8-bit samples. *)
Definition ndarray := list (list (list N)).

(** A pillow image, kept opaque apart from its mode and raw samples. *)
Record PilImage := { pil_mode : string; pil_data : ndarray }.

(** The argument [data] of [imread]: [np.ndarray], [Image.Image] or [str]. *)
Inductive pyref :=
| Ndarray (a : ndarray)
| Pillow (im : PilImage)
| Str (s : string).

(** A Python float as the matcher may return it. *)
Inductive pyfloat :=
| Finite (q : Q)
| PosInf
| NegInf
| NaN.

(** The dictionary returned by [ImageX.match]. *)
Record MatchResult := { similarity : pyfloat; point : Z * Z }.

(** Exceptions.  [IOError] and [RuntimeError] are the two the module raises
    itself, with the message it builds; [External] stands for whatever a
    collaborator (requests, base64, cv2, findit, the device) raises. *)
Inductive exn :=
| IOError (msg : string)
| RuntimeError (msg : string)
| External (who : string).

(** ** Trace of collaborator calls *)

Inductive event :=
| EvTime (t : Q)                       (* time.time() returned t *)
| EvImread (data : pyref)              (* imread(data) was entered *)
| EvIsFile (path : string)             (* os.path.isfile(path) *)
| EvCvImread (path : string)           (* cv2.imread(path) *)
| EvGet (url : string)                 (* requests.get(url) *)
| EvLoadTemplate                       (* fi.load_template(...) *)
| EvScreenshot                         (* d.screenshot(format='opencv') *)
| EvFind                               (* fi.find(...): a match is scored *)
| EvLog (sim : pyfloat) (threshold left : Q)  (* logger.debug(...) *)
| EvSleep (d : Q)                      (* time.sleep(d) *)
| EvClick (x y : Z).                   (* d.click(x, y) *)

(** The world threaded through the code: how many times the clock and the
    other collaborators have been called so far, and the trace. *)
Record World := { ticks : nat; ios : nat; trace : list event }.

Definition world0 : World := {| ticks := 0; ios := 0; trace := [] |}.

(** What a run of a piece of code ends in. *)
Inductive outcome (A : Type) :=
| Return (a : A)
| Raise (e : exn)
| Diverge.                              (* the loop budget ran out *)
Arguments Return {A} a.
Arguments Raise {A} e.
Arguments Diverge {A}.

Definition M (A : Type) : Type := World -> outcome A * World.

Definition ret {A} (a : A) : M A := fun w => (Return a, w).
Definition raise {A} (e : exn) : M A := fun w => (Raise e, w).
Definition diverge {A} : M A := fun w => (Diverge, w).
Definition bind {A B} (c : M A) (k : A -> M B) : M B :=
  fun w => match c w with
           | (Return a, w') => k a w'
           | (Raise e, w') => (Raise e, w')
           | (Diverge, w') => (Diverge, w')
           end.

Notation "x <- c ;; k" := (bind c (fun x => k))
  (at level 61, c at next level, right associativity).
Notation "c ;;; k" := (bind c (fun _ => k))
  (at level 61, right associativity).

(** A collaborator's answer enters the monad: [inl e] is raised. *)
Definition lift {A} (r : exn + A) : M A :=
  match r with inl e => raise e | inr a => ret a end.

Definition emit (e : event) : M unit :=
  fun w => (Return tt, {| ticks := ticks w; ios := ios w; trace := trace w ++ [e] |}).

(** One call of a collaborator other than the clock: its answer may depend
    on how many such calls came before. *)
Definition io {A} (e : event) (f : nat -> A) : M A :=
  fun w => (Return (f (ios w)),
            {| ticks := ticks w; ios := S (ios w); trace := trace w ++ [e] |}).

(** ** String helpers for the Python expressions used *)

(** [s.find(sub)] *)
Definition py_find (s sub : string) : Z :=
  match String.index 0 sub s with
  | Some n => Z.of_nat n
  | None => (-1)%Z
  end.

(** [s[:n]] *)
Definition py_slice_to (s : string) (n : nat) : string := String.substring 0 n s.

(** [s[pos:]] for [pos >= 0] *)
Definition py_slice_from (s : string) (pos : Z) : string :=
  String.substring (Z.to_nat pos) (String.length s - Z.to_nat pos) s.

(** [re.match(r'^https?://', s)] *)
Definition re_match_https (s : string) : bool :=
  String.prefix "http://" s || String.prefix "https://" s.

(** [x < y] on finite floats *)
Definition Qltb (x y : Q) : bool := negb (Qle_bool y x).

(** [x < y] for a score [x] and a finite [y]: every comparison with NaN is
    false. *)
Definition float_lt (x : pyfloat) (y : Q) : bool :=
  match x with
  | Finite q => Qltb q y
  | NegInf => true
  | PosInf | NaN => false
  end.

(** [x >= y] for a score [x] and a finite [y]. *)
Definition float_ge (x : pyfloat) (y : Q) : bool :=
  match x with
  | Finite q => Qle_bool y q
  | PosInf => true
  | NegInf | NaN => false
  end.

Section Model.

(** [R] is whatever the device's [click] returns. *)
Variable R : Type.

(** ** The environment: the collaborators of the module *)

Record Env := {
  (** [time.time()]: the value returned by the k-th call *)
  clock : nat -> Q;
  (** [os.path.isfile(path)] *)
  os_path_isfile : nat -> string -> bool;
  (** [cv2.imread(path)]: [None] when the file cannot be read as an image *)
  cv2_imread : nat -> string -> option ndarray;
  (** [requests.get(url).content] *)
  requests_get : nat -> string -> exn + list Byte.byte;
  (** [base64.decodestring(s)] *)
  base64_decodestring : string -> exn + list Byte.byte;
  (** [cv2.imdecode(np.asarray(bytearray(raw)), flag)]: [None] when the
      bytes are not an image *)
  cv2_imdecode : list Byte.byte -> exn + option ndarray;
  (** [np.array(pil_image.convert('RGB'))] *)
  pil_rgb_array : PilImage -> ndarray;
  (** [fi.load_template("template", pic_object=cvimage)] *)
  fi_load_template : option ndarray -> exn + unit;
  (** [fi.find("target", target_pic_object=target)], read at
      ['data']['template']['TemplateEngine']: [(target_sim, target_point)] *)
  fi_find : option ndarray -> ndarray -> exn + (pyfloat * (Z * Z));
  (** [d.screenshot(format='opencv')] *)
  d_screenshot : nat -> exn + ndarray;
  (** [d.click(x, y)] *)
  d_click : nat -> Z -> Z -> exn + R;
  (** [x + y] and [x - y] on time stamps: the exact result rounded to a
      float.  Rounding keeps the order, so adding a number that is not
      positive to a float does not give a larger float. *)
  float_add : Q -> Q -> Q;
  float_sub : Q -> Q -> Q;
  float_add_nonpos : forall t d, d <= 0 -> float_add t d <= t
}.

Variable E : Env.

(** ** Module-level functions *)

(** [cv2_image[:, :, ::-1].copy()] *)
Definition reverse_channels (a : ndarray) : ndarray := map (map (@rev N)) a.

Definition pil2cv (pil_image : PilImage) : ndarray :=
  let cv2_image := pil_rgb_array E pil_image in
  reverse_channels cv2_image.

Definition _open_data_url (data : string) : M (option ndarray) :=
  let pos := py_find data "base64," in
  if (pos =? -1)%Z then
    raise (IOError ("data url is invalid, head " ++ py_slice_to data 20))
  else
    let pos := (pos + Z.of_nat (String.length "base64,"))%Z in
    raw_data <- lift (base64_decodestring E (py_slice_from data pos)) ;;
    image <- lift (cv2_imdecode E raw_data) ;;
    ret image.

Definition _open_image_url (url : string) : M (option ndarray) :=
  content <- (r <- io (EvGet url) (fun k => requests_get E k url) ;; lift r) ;;
  image <- lift (cv2_imdecode E content) ;;
  ret image.

Definition imread (data : pyref) : M (option ndarray) :=
  emit (EvImread data) ;;;
  match data with
  | Ndarray a => ret (Some a)
  | Pillow im => ret (Some (pil2cv im))
  | Str s =>
      if String.prefix "data:image/" s then _open_data_url s
      else if re_match_https s then _open_image_url s
      else
        isfile <- io (EvIsFile s) (fun k => os_path_isfile E k s) ;;
        if isfile then
          im <- io (EvCvImread s) (fun k => cv2_imread E k s) ;;
          match im with
          | None => raise (IOError ("Image format error: " ++ s))
          | Some a => ret (Some a)
          end
        else raise (IOError ("image read invalid data: " ++ s))
  end.

(** ** class ImageX *)

Definition time_time : M Q :=
  fun w => (Return (clock E (ticks w)),
            {| ticks := S (ticks w); ios := ios w;
               trace := trace w ++ [EvTime (clock E (ticks w))] |}).

Definition time_sleep (d : Q) : M unit := emit (EvSleep d).

Definition logger_debug (sim : pyfloat) (threshold left : Q) : M unit :=
  emit (EvLog sim threshold left).

Definition send_click (x y : Z) : M R :=
  r <- io (EvClick x y) (fun k => d_click E k x y) ;; lift r.

(** [ImageX.match]; [match] is a keyword of Rocq. *)
Definition match_ (imdata : pyref) : M MatchResult :=
  cvimage <- imread imdata ;;
  emit EvLoadTemplate ;;;
  lift (fi_load_template E cvimage) ;;;
  target <- (r <- io EvScreenshot (d_screenshot E) ;; lift r) ;;
  emit EvFind ;;;
  result <- lift (fi_find E cvimage target) ;;
  let target_sim := fst result in
  ret {| similarity := target_sim; point := snd result |}.

(** The [while time.time() < deadline] loop of [__wait]; [fuel] bounds the
    number of iterations, and falling out of the loop returns [None]. *)
Fixpoint poll (fuel : nat) (imdata : pyref) (deadline threshold : Q)
  : M (option MatchResult) :=
  match fuel with
  | O => diverge
  | S fuel' =>
      now <- time_time ;;
      if Qltb now deadline then
        m <- match_ imdata ;;
        let sim := similarity m in
        now' <- time_time ;;
        logger_debug sim threshold (float_sub E deadline now') ;;;
        if float_lt sim threshold then poll fuel' imdata deadline threshold
        else
          time_sleep (1#10) ;;;
          ret (Some m)
      else ret None
  end.

(** [ImageX.__wait]: one tier.  The deadline is fixed before the loop. *)
Definition __wait (fuel : nat) (imdata : pyref) (timeout threshold : Q)
  : M (option MatchResult) :=
  t <- time_time ;;
  let deadline := float_add E t timeout in
  poll fuel imdata deadline threshold.

(** [ImageX.wait]: [fuel] is the budget of each tier's loop. *)
Definition wait (fuel : nat) (imdata : pyref) (timeout : Q)
  : M (option MatchResult) :=
  m <- __wait fuel imdata timeout (8#10) ;;
  match m with
  | None => ret None
  | Some _ => __wait fuel imdata timeout (9#10)
  end.

(** [ImageX.click] *)
Definition click (fuel : nat) (imdata : pyref) (timeout : Q) : M R :=
  res <- wait fuel imdata timeout ;;
  match res with
  | None => raise (RuntimeError "image object not found")
  | Some res =>
      let '(x, y) := point res in
      send_click x y
  end.

(** The world after one more clock reading, and after the reading and the
    log line that close a poll cycle. *)
Definition tick (w : World) : World := snd (time_time w).

Definition logged (deadline threshold : Q) (m : MatchResult) (w : World)
  : World :=
  {| ticks := S (ticks w); ios := ios w;
     trace := trace w ++
       [EvTime (clock E (ticks w));
        EvLog (similarity m) threshold
          (float_sub E deadline (clock E (ticks w)))] |}.

Definition slept (d : Q) (w : World) : World :=
  {| ticks := ticks w; ios := ios w; trace := trace w ++ [EvSleep d] |}.

End Model.

Close Scope Q_scope.

(** ** Reading traces *)

(** The events a run added to the trace: what [w'] has beyond [w]. *)
Definition added (w w' : World) : list event :=
  skipn (List.length (trace w)) (trace w').

Definition count (p : event -> bool) (t : list event) : nat :=
  List.length (filter p t).

Definition is_imread (e : event) : bool :=
  match e with EvImread _ => true | _ => false end.
Definition is_get (e : event) : bool :=
  match e with EvGet _ => true | _ => false end.
Definition is_screenshot (e : event) : bool :=
  match e with EvScreenshot => true | _ => false end.
Definition is_find (e : event) : bool :=
  match e with EvFind => true | _ => false end.
Definition is_log (e : event) : bool :=
  match e with EvLog _ _ _ => true | _ => false end.
Definition is_sleep (e : event) : bool :=
  match e with EvSleep _ => true | _ => false end.
Definition is_click (e : event) : bool :=
  match e with EvClick _ _ => true | _ => false end.
Definition is_isfile (e : event) : bool :=
  match e with EvIsFile _ => true | _ => false end.

(** The references [imread] fetches over the network, and those it looks
    up in the file system. *)
Definition is_url (data : pyref) : bool :=
  match data with
  | Str s => negb (String.prefix "data:image/" s) && re_match_https s
  | _ => false
  end.

Definition is_path (data : pyref) : bool :=
  match data with
  | Str s => negb (String.prefix "data:image/" s) && negb (re_match_https s)
  | _ => false
  end.

(** ** Concrete environments used to run the code *)

(** A device whose k-th collaborator call, when it is a screenshot, shows a
    one-sample frame taken from [script]; a matcher that scores a frame by
    that sample, in hundredths; a clock that advances [1/10] s per reading;
    a file system described by [files]; a network that serves [body]; a
    decoder that refuses an empty buffer and otherwise follows
    [decodable]; sums and differences of time stamps without rounding. *)
Lemma Qplus_nonpos (t d : Q) : (d <= 0)%Q -> (t + d <= t)%Q.
Proof.
  intros Hd. rewrite <- (Qplus_0_r t) at 2. apply Qplus_le_r. exact Hd.
Qed.

Definition script_env (script : list N) (files : string -> bool)
  (decodable : list Byte.byte -> bool) (body : list Byte.byte) : Env Z :=
  {| clock := fun k => (inject_Z (Z.of_nat k) / 10)%Q;
     os_path_isfile := fun _ p => files p;
     cv2_imread := fun _ _ => None;
     requests_get := fun _ _ => inr body;
     base64_decodestring := fun s => inr (list_byte_of_string s);
     cv2_imdecode := fun b =>
       match b with
       | [] => inl (External "cv2.error")
       | _ => inr (if decodable b then Some [[[0%N]]] else None)
       end;
     pil_rgb_array := pil_data;
     fi_load_template := fun _ => inr tt;
     fi_find := fun _ target =>
       inr (match target with
            | ((s :: _) :: _) :: _ =>
                (Finite (inject_Z (Z.of_N s) / 100)%Q, (10, 20)%Z)
            | _ => (Finite 0%Q, (0, 0)%Z)
            end);
     d_screenshot := fun k => inr [[[nth k script 0%N]]];
     d_click := fun k x y => inr (x + y)%Z;
     float_add := Qplus;
     float_sub := Qminus;
     float_add_nonpos := Qplus_nonpos |}.

(** The environment [E] with another matcher. *)
Definition with_fi_find (R : Type) (E : Env R)
  (f : option ndarray -> ndarray -> exn + (pyfloat * (Z * Z))) : Env R :=
  {| clock := clock E;
     os_path_isfile := os_path_isfile E;
     cv2_imread := cv2_imread E;
     requests_get := requests_get E;
     base64_decodestring := base64_decodestring E;
     cv2_imdecode := cv2_imdecode E;
     pil_rgb_array := pil_rgb_array E;
     fi_load_template := fi_load_template E;
     fi_find := f;
     d_screenshot := d_screenshot E;
     d_click := d_click E;
     float_add := float_add E;
     float_sub := float_sub E;
     float_add_nonpos := float_add_nonpos E |}.

(** A matcher whose score is always NaN. *)
Definition nan_env : Env Z :=
  with_fi_find (script_env [] (fun _ => false) (fun _ => false) [])
    (fun _ _ => inr (NaN, (10, 20)%Z)).

Definition no_files : string -> bool := fun _ => false.
Definition never_decodable : list Byte.byte -> bool := fun _ => false.

(** The collaborator calls [imread] makes after being entered, when the
    [k]-th such call is the next one. *)
Definition imread_events (R : Type) (E : Env R) (data : pyref) (k : nat)
  : list event :=
  match data with
  | Ndarray _ | Pillow _ => []
  | Str s =>
      if String.prefix "data:image/" s then []
      else if re_match_https s then [EvGet s]
      else if os_path_isfile E k s then [EvIsFile s; EvCvImread s]
      else [EvIsFile s]
  end.

(** The events of one call of [ImageX.match]: [imread] is entered, its
    collaborators are called, then the template is loaded, a frame is
    captured and the match is scored.  A call that raises stops early, so
    its events are a prefix; [complete] tells the two apart. *)
Definition match_tail (complete : bool) (tail : list event) : Prop :=
  if complete then tail = [EvLoadTemplate; EvScreenshot; EvFind]
  else tail = [] \/ tail = [EvLoadTemplate]
       \/ tail = [EvLoadTemplate; EvScreenshot]
       \/ tail = [EvLoadTemplate; EvScreenshot; EvFind].

Definition match_events (R : Type) (E : Env R) (imdata : pyref)
  (complete : bool) (body : list event) : Prop :=
  exists k tail,
    body = EvImread imdata :: imread_events E imdata k ++ tail
    /\ match_tail complete tail.

(** The traces of the polling loop of [__wait], cycle by cycle, with the
    outcome they end in. *)
Inductive poll_run (R : Type) (E : Env R) (imdata : pyref)
  (deadline threshold : Q)
  : list event -> outcome (option MatchResult) -> Prop :=
| poll_timeout (t : Q) :
    (deadline <= t)%Q ->
    poll_run E imdata deadline threshold [EvTime t] (Return None)
| poll_hit (t t' : Q) (body : list event) (m : MatchResult) :
    (t < deadline)%Q ->
    match_events E imdata true body ->
    (exists cv target, fi_find E cv target = inr (similarity m, point m)) ->
    float_lt (similarity m) threshold = false ->
    poll_run E imdata deadline threshold
      (EvTime t :: body ++
         [EvTime t'; EvLog (similarity m) threshold (float_sub E deadline t');
          EvSleep (1#10)%Q])
      (Return (Some m))
| poll_miss (t t' : Q) (body rest : list event) (m : MatchResult)
    (r : outcome (option MatchResult)) :
    (t < deadline)%Q ->
    match_events E imdata true body ->
    (exists cv target, fi_find E cv target = inr (similarity m, point m)) ->
    float_lt (similarity m) threshold = true ->
    poll_run E imdata deadline threshold rest r ->
    poll_run E imdata deadline threshold
      (EvTime t :: body ++
         [EvTime t'; EvLog (similarity m) threshold (float_sub E deadline t')]
         ++ rest)
      r
| poll_abort (t : Q) (body : list event) (e : exn) :
    (t < deadline)%Q ->
    match_events E imdata false body ->
    poll_run E imdata deadline threshold (EvTime t :: body) (Raise e)
| poll_budget :
    poll_run E imdata deadline threshold [] Diverge.

(** The spec's names for the errors the module raises: all but the last
    are [IOError]s told apart by their message. *)
Definition MalformedReferenceError (data : string) : exn :=
  IOError ("data url is invalid, head " ++ py_slice_to data 20).
Definition DecodeError (data : string) : exn :=
  IOError ("Image format error: " ++ data).
Definition InvalidReferenceError (data : string) : exn :=
  IOError ("image read invalid data: " ++ data).
Definition TargetNotFoundError : exn :=
  RuntimeError "image object not found".

(** The environment [E] with another clock. *)
Definition with_clock (R : Type) (E : Env R) (c : nat -> Q) : Env R :=
  {| clock := c;
     os_path_isfile := os_path_isfile E;
     cv2_imread := cv2_imread E;
     requests_get := requests_get E;
     base64_decodestring := base64_decodestring E;
     cv2_imdecode := cv2_imdecode E;
     pil_rgb_array := pil_rgb_array E;
     fi_load_template := fi_load_template E;
     fi_find := fi_find E;
     d_screenshot := d_screenshot E;
     d_click := d_click E;
     float_add := float_add E;
     float_sub := float_sub E;
     float_add_nonpos := float_add_nonpos E |}.

(** Two worlds with the same call counters (their traces may differ). *)
Definition same_counters (w1 w2 : World) : Prop :=
  ticks w1 = ticks w2 /\ ios w1 = ios w2.

(** Two computations that agree on worlds with the same counters: same
    outcome, and the same counters afterwards. *)
Definition agree (A : Type) (c1 c2 : M A) : Prop :=
  forall w1 w2, same_counters w1 w2 ->
    fst (c1 w1) = fst (c2 w2) /\ same_counters (snd (c1 w1)) (snd (c2 w2)).

(** The event counts that hold for a tier and for the whole [wait]. *)
Definition balanced (imdata : pyref) (r : outcome (option MatchResult))
  (t : list event) : Prop :=
  count is_click t = 0
  /\ count is_get t = (if is_url imdata then count is_imread t else 0)
  /\ count is_isfile t = (if is_path imdata then count is_imread t else 0)
  /\ count is_log t <= count is_find t
  /\ count is_find t <= count is_screenshot t
  /\ count is_screenshot t <= count is_imread t
  /\ match r with
     | Raise _ => count is_imread t = S (count is_log t)
     | _ => count is_log t = count is_imread t
     end.

Definition is_cvimread (e : event) : bool :=
  match e with EvCvImread _ => true | _ => false end.

(** The last event of a trace, if any. *)
Definition last_event (t : list event) : option event :=
  match rev t with
  | [] => None
  | e :: _ => Some e
  end.

(** A score inside [0, 1]. *)
Definition in_unit_range (x : pyfloat) : Prop :=
  match x with
  | Finite q => (0 <= q <= 1)%Q
  | _ => False
  end.

(** What [wait] does with the outcome of its first tier: only a result
    starts the second tier, from the world the first tier left. *)
Definition second_tier (R : Type) (E : Env R) (fuel : nat) (imdata : pyref)
  (timeout : Q) (first : outcome (option MatchResult) * World)
  : outcome (option MatchResult) * World :=
  match first with
  | (Return (Some _), w1) => __wait E fuel imdata timeout (9#10)%Q w1
  | (Return None, w1) => (Return None, w1)
  | (Raise e, w1) => (Raise e, w1)
  | (Diverge, w1) => (Diverge, w1)
  end.

(** ** Module-level functions outside the wait loop *)

(** [cv2pil]: [Image.fromarray] belongs to pillow and is a parameter. *)
Definition cv2pil (fromarray : ndarray -> PilImage) (cv_image : ndarray)
  : PilImage :=
  fromarray (reverse_channels cv_image).

(** What [draw_point] asks of [ImageDraw.Draw(im)], in order.  A box is
    [(x0, y0, x1, y1)]. *)
Inductive draw_op :=
| DrawLine (xy : Z * Z * Z * Z) (fill : string) (width : Z)
| DrawEllipse (xy : Z * Z * Z * Z) (fill : string).

(** [draw_point(im, x, y)] for an image of size [im.size = (w, h)]; [//] is
    floor division. *)
Definition draw_point (size : Z * Z) (x y : Z) : list draw_op :=
  let '(w, h) := size in
  let line1 := DrawLine (x, 0, x, h)%Z "red" 5 in
  let line2 := DrawLine (0, y, w, y)%Z "red" 5 in
  let r := (Z.min w h / 40)%Z in
  let ellipse1 := DrawEllipse (x - r, y - r, x + r, y + r)%Z "red" in
  let r := (Z.min w h / 50)%Z in
  let ellipse2 := DrawEllipse (x - r, y - r, x + r, y + r)%Z "white" in
  [line1; line2; ellipse1; ellipse2].

(** A pillow that builds an RGB image from an array and reads it back. *)
Definition rgb_fromarray (a : ndarray) : PilImage :=
  {| pil_mode := "RGB"; pil_data := a |}.

(** ** The code run on small inputs *)

Example py_find_marker :
  py_find "data:image/png;base64,aGk=" "base64," = 15%Z
  /\ py_find "data:image/jpeg,abcd" "base64," = (-1)%Z
  /\ py_slice_from "data:image/png;base64,aGk=" 22 = "aGk="%string
  /\ py_slice_to "data:image/png;base64,aGk=" 20 = "data:image/png;base6"%string.
Proof. repeat split. Qed.

Example re_match_https_cases :
  re_match_https "http://host/a.png" = true
  /\ re_match_https "https://host/a.png" = true
  /\ re_match_https "ftp://host/a.png" = false
  /\ re_match_https "see http://host" = false.
Proof. repeat split. Qed.

(** A data URL without the [base64,] marker. *)
Example imread_malformed_data_url :
  fst (imread (script_env [] no_files never_decodable [])
         (Str "data:image/jpeg,abcd") world0)
  = Raise (MalformedReferenceError "data:image/jpeg,abcd").
Proof. reflexivity. Qed.

(** A click that needs three poll cycles: a miss and a hit in the first
    tier, a hit in the second. *)
Example click_three_cycles :
  fst (click (script_env [50; 85; 95]%N no_files never_decodable []) 10
         (Ndarray [[[1%N]]]) 5%Q world0) = Return 30%Z
  /\ map (fun e => match e with EvTime _ => "time" | EvImread _ => "imread"
                   | EvScreenshot => "screenshot" | EvFind => "find"
                   | EvLog _ _ _ => "log" | EvSleep _ => "sleep"
                   | EvClick _ _ => "click" | EvLoadTemplate => "load"
                   | _ => "io" end%string)
       (trace (snd (click (script_env [50; 85; 95]%N no_files
                             never_decodable []) 10
                      (Ndarray [[[1%N]]]) 5%Q world0)))
     = ["time";
        "time"; "imread"; "load"; "screenshot"; "find"; "time"; "log";
        "time"; "imread"; "load"; "screenshot"; "find"; "time"; "log"; "sleep";
        "time";
        "time"; "imread"; "load"; "screenshot"; "find"; "time"; "log"; "sleep";
        "click"]%string.
Proof. vm_compute. split; reflexivity. Qed.

(** ** Basic facts about runs *)

Ltac split4 := split; [|split; [|split]].

Lemma added_app (w w' : World) (t : list event) :
  trace w' = trace w ++ t -> added w w' = t.
Proof.
  intros H. unfold added. rewrite H.
  rewrite skipn_app, skipn_all, Nat.sub_diag. reflexivity.
Qed.

Lemma count_app (p : event -> bool) (t u : list event) :
  count p (t ++ u) = count p t + count p u.
Proof. unfold count. rewrite filter_app, length_app. reflexivity. Qed.

Lemma Qltb_lt (x y : Q) : Qltb x y = true <-> (x < y)%Q.
Proof.
  unfold Qltb. rewrite negb_true_iff. split.
  - intros H. apply Qnot_le_lt. intros L. apply Qle_bool_iff in L. congruence.
  - intros H. destruct (Qle_bool y x) eqn:L; [|reflexivity].
    apply Qle_bool_iff in L. exfalso. exact (Qlt_not_le _ _ H L).
Qed.

Lemma Qltb_ge (x y : Q) : Qltb x y = false <-> (y <= x)%Q.
Proof.
  unfold Qltb. rewrite negb_false_iff. apply Qle_bool_iff.
Qed.

Lemma float_ge_not_lt (x : pyfloat) (y : Q) :
  float_ge x y = true -> float_lt x y = false.
Proof.
  destruct x as [q| | |]; cbn; try discriminate; [|reflexivity].
  unfold Qltb. intros ->. reflexivity.
Qed.

Lemma float_not_lt (x : pyfloat) (y : Q) :
  float_lt x y = false -> x = NaN \/ float_ge x y = true.
Proof.
  destruct x as [q| | |]; cbn; try discriminate; auto.
  unfold Qltb. intros H. right. apply negb_false_iff. exact H.
Qed.

Lemma count_cons (p : event -> bool) (e : event) (t : list event) :
  count p (e :: t) = (if p e then 1 else 0) + count p t.
Proof. unfold count. simpl. destruct (p e); reflexivity. Qed.

Lemma count_nil (p : event -> bool) : count p [] = 0.
Proof. reflexivity. Qed.

Ltac count_norm :=
  repeat (rewrite count_cons || rewrite count_app || rewrite count_nil);
  cbn [is_imread is_get is_isfile is_click is_sleep is_log is_find
       is_screenshot].

Section Runs.

Variable R : Type.
Variable E : Env R.

(** [imread] always leaves the same footprint: its own entry, then the
    collaborator calls listed by [imread_events]; it never reads the clock. *)
Lemma imread_footprint (data : pyref) (w : World) :
  let w' := snd (imread E data w) in
  trace w' = trace w ++ EvImread data :: imread_events E data (ios w)
  /\ ticks w' = ticks w
  /\ ios w' = ios w + List.length (imread_events E data (ios w))
  /\ fst (imread E data w) <> Diverge.
Proof.
  destruct data as [a|im|s]; simpl.
  1,2: repeat split; try (simpl; lia); discriminate.
  unfold imread, bind, emit, imread_events; simpl.
  destruct (String.prefix "data:image/" s) eqn:Hd.
  - unfold _open_data_url.
    destruct (py_find s "base64," =? -1)%Z; simpl.
    + repeat split; try (simpl; lia); discriminate.
    + unfold bind, lift.
      destruct (base64_decodestring E _) as [e|raw]; simpl.
      * repeat split; try (simpl; lia); discriminate.
      * destruct (cv2_imdecode E raw) as [e|im]; simpl;
          repeat split; try (simpl; lia); discriminate.
  - destruct (re_match_https s) eqn:Hu.
    + unfold _open_image_url, bind, io, lift; simpl.
      destruct (requests_get E (ios w) s) as [e|content]; simpl.
      * rewrite <- app_assoc. repeat split; try (simpl; lia); discriminate.
      * destruct (cv2_imdecode E content) as [e|im]; simpl;
          rewrite <- app_assoc; repeat split; try (simpl; lia); discriminate.
    + unfold io; simpl.
      destruct (os_path_isfile E (ios w) s) eqn:Hf; simpl.
      * destruct (cv2_imread E (S (ios w)) s); simpl;
          rewrite <- !app_assoc; repeat split; try (simpl; lia); discriminate.
      * rewrite <- !app_assoc. repeat split; try (simpl; lia); discriminate.
Qed.

(** [ImageX.match] leaves the events of [match_events] and never reads the
    clock; when it returns, the similarity and the point are the matcher's. *)
Lemma match_footprint (imdata : pyref) (w w' : World) (r : outcome MatchResult) :
  match_ E imdata w = (r, w') ->
  exists body,
    trace w' = trace w ++ body
    /\ ticks w' = ticks w
    /\ r <> Diverge
    /\ match r with
       | Return m =>
           match_events E imdata true body
           /\ exists cv target,
                fi_find E cv target = inr (similarity m, point m)
       | _ => match_events E imdata false body
       end.
Proof.
  pose proof (imread_footprint imdata w) as F. simpl in F.
  destruct F as (Ht & Hk & _ & Hd).
  unfold match_, bind, emit, lift, io, ret, raise.
  destruct (imread E imdata w) as [[cv|e|] w1]; simpl in *.
  3: congruence.
  2:{ intros H; inversion H; subst; clear H.
      exists (EvImread imdata :: imread_events E imdata (ios w) ++ []).
      split4; auto; try discriminate.
      - rewrite app_nil_r. exact Ht.
      - exists (ios w), (@nil event). split; [reflexivity | left; reflexivity]. }
  destruct (fi_load_template E cv) as [e|[]]; simpl.
  { intros H; inversion H; subst; clear H. simpl.
    exists (EvImread imdata :: imread_events E imdata (ios w) ++ [EvLoadTemplate]).
    rewrite Ht. rewrite <- !app_assoc. simpl.
    split4; auto; try discriminate.
    exists (ios w), [EvLoadTemplate]. split; [reflexivity | right; left; reflexivity]. }
  destruct (d_screenshot E (ios w1)) as [e|target]; simpl.
  { intros H; inversion H; subst; clear H. simpl.
    exists (EvImread imdata :: imread_events E imdata (ios w)
              ++ [EvLoadTemplate; EvScreenshot]).
    rewrite Ht. rewrite <- !app_assoc. simpl.
    split4; auto; try discriminate.
    exists (ios w), [EvLoadTemplate; EvScreenshot].
    split; [reflexivity | right; right; left; reflexivity]. }
  destruct (fi_find E cv target) as [e|[sim pt]] eqn:Hf; simpl;
    intros H; inversion H; subst; clear H; simpl;
    exists (EvImread imdata :: imread_events E imdata (ios w)
            ++ [EvLoadTemplate; EvScreenshot; EvFind]);
    rewrite Ht; rewrite <- !app_assoc; simpl;
    (split4; auto; try discriminate).
  - exists (ios w), [EvLoadTemplate; EvScreenshot; EvFind].
    split; [reflexivity | right; right; right; reflexivity].
  - split.
    + exists (ios w), [EvLoadTemplate; EvScreenshot; EvFind].
      split; reflexivity.
    + exists cv, target. exact Hf.
Qed.

(** One iteration of the loop of [__wait]. *)
Lemma poll_step (fuel : nat) (imdata : pyref) (deadline threshold : Q)
  (w : World) :
  poll E (S fuel) imdata deadline threshold w =
  if Qltb (clock E (ticks w)) deadline then
    match match_ E imdata (tick E w) with
    | (Return m, w2) =>
        if float_lt (similarity m) threshold
        then poll E fuel imdata deadline threshold (logged E deadline threshold m w2)
        else (Return (Some m),
              slept (1#10)%Q (logged E deadline threshold m w2))
    | (Raise e, w2) => (Raise e, w2)
    | (Diverge, w2) => (Diverge, w2)
    end
  else (Return None, tick E w).
Proof.
  cbn [poll]. unfold bind at 1. unfold time_time at 1. unfold tick, time_time.
  cbn [snd].
  destruct (Qltb (clock E (ticks w)) deadline); [|reflexivity].
  unfold bind at 1.
  destruct (match_ E imdata _) as [[m|e|] w2]; try reflexivity.
  unfold bind at 1. cbn beta iota.
  unfold bind at 1. unfold logger_debug, emit at 1. cbn beta iota.
  cbn [ticks ios trace].
  unfold logged. rewrite <- app_assoc. cbn [app].
  destruct (float_lt (similarity m) threshold); [reflexivity|].
  unfold bind, time_sleep, emit, ret, slept. reflexivity.
Qed.

Lemma poll_shape (fuel : nat) (imdata : pyref) (deadline threshold : Q) :
  forall (w w' : World) (r : outcome (option MatchResult)),
    poll E fuel imdata deadline threshold w = (r, w') ->
    exists t, trace w' = trace w ++ t
              /\ poll_run E imdata deadline threshold t r.
Proof.
  induction fuel as [|fuel IH]; intros w w' r H.
  - inversion H; subst. exists []. rewrite app_nil_r. split; [reflexivity|].
    constructor.
  - rewrite poll_step in H.
    destruct (Qltb (clock E (ticks w)) deadline) eqn:Hnow.
    2:{ inversion H; subst. exists [EvTime (clock E (ticks w))].
        split; [reflexivity|]. constructor. apply Qltb_ge. exact Hnow. }
    apply Qltb_lt in Hnow.
    destruct (match_ E imdata (tick E w)) as [rm w2] eqn:Hm.
    apply match_footprint in Hm. destruct Hm as (body & Ht & Hk & Hd & Hb).
    unfold tick, time_time in Ht; cbn [snd trace] in Ht.
    destruct rm as [m|e|].
    + destruct Hb as [Hb Hfi].
      destruct (float_lt (similarity m) threshold) eqn:Hs.
      * apply IH in H. destruct H as (rest & Hr & Hrun).
        exists (EvTime (clock E (ticks w)) :: body ++
                  [EvTime (clock E (ticks w2));
                   EvLog (similarity m) threshold
                     (float_sub E deadline (clock E (ticks w2)))]
                  ++ rest).
        split.
        -- rewrite Hr. unfold logged; cbn [trace]. rewrite Ht.
           rewrite <- !app_assoc. reflexivity.
        -- apply poll_miss; auto.
      * inversion H; subst.
        exists (EvTime (clock E (ticks w)) :: body ++
                  [EvTime (clock E (ticks w2));
                   EvLog (similarity m) threshold
                     (float_sub E deadline (clock E (ticks w2)));
                   EvSleep (1#10)%Q]).
        split.
        -- unfold slept, logged; cbn [trace]. rewrite Ht.
           rewrite <- !app_assoc. reflexivity.
        -- apply poll_hit; auto.
    + inversion H; subst.
      exists (EvTime (clock E (ticks w)) :: body). split.
      * rewrite Ht. rewrite <- app_assoc. reflexivity.
      * apply poll_abort; auto.
    + congruence.
Qed.

(** What one call of [ImageX.match] contributes to each kind of event. *)
Lemma match_events_counts (imdata : pyref) (complete : bool)
  (body : list event) :
  match_events E imdata complete body ->
  count is_imread body = 1
  /\ count is_get body = (if is_url imdata then 1 else 0)
  /\ count is_isfile body = (if is_path imdata then 1 else 0)
  /\ count is_click body = 0
  /\ count is_sleep body = 0
  /\ count is_log body = 0
  /\ count is_find body <= count is_screenshot body <= 1
  /\ (complete = true ->
      count is_screenshot body = 1 /\ count is_find body = 1).
Proof.
  intros (k & tail & -> & Ht).
  assert (Hi : forall p, count p (EvImread imdata :: imread_events E imdata k ++ tail)
               = (if p (EvImread imdata) then 1 else 0)
                 + count p (imread_events E imdata k) + count p tail).
  { intros p. rewrite count_cons, count_app. lia. }
  rewrite !Hi. clear Hi. cbn [is_imread is_get is_isfile is_click is_sleep is_log is_find is_screenshot].
  assert (Hev : count is_imread (imread_events E imdata k) = 0
          /\ count is_get (imread_events E imdata k) = (if is_url imdata then 1 else 0)
          /\ count is_isfile (imread_events E imdata k) = (if is_path imdata then 1 else 0)
          /\ count is_click (imread_events E imdata k) = 0
          /\ count is_sleep (imread_events E imdata k) = 0
          /\ count is_log (imread_events E imdata k) = 0
          /\ count is_find (imread_events E imdata k) = 0
          /\ count is_screenshot (imread_events E imdata k) = 0).
  { unfold imread_events, is_url, is_path.
    destruct imdata as [a|im|s]; [cbn; repeat split; reflexivity ..|].
    destruct (String.prefix "data:image/" s); [cbn; repeat split; reflexivity|].
    destruct (re_match_https s); [cbn; repeat split; reflexivity|].
    destruct (os_path_isfile E k s); cbn; repeat split; reflexivity. }
  destruct Hev as (-> & -> & -> & -> & -> & -> & -> & ->).
  assert (Htl : count is_imread tail = 0 /\ count is_get tail = 0
          /\ count is_isfile tail = 0 /\ count is_click tail = 0
          /\ count is_sleep tail = 0 /\ count is_log tail = 0
          /\ count is_find tail <= count is_screenshot tail <= 1
          /\ (complete = true ->
              count is_screenshot tail = 1 /\ count is_find tail = 1)).
  { destruct complete; cbn in Ht.
    - subst tail. cbn. repeat split; auto.
    - destruct Ht as [-> | [-> | [-> | ->]]]; cbn;
        repeat split; auto; discriminate. }
  destruct Htl as (-> & -> & -> & -> & -> & -> & Hle & Hc).
  repeat split; try lia; apply Hc; assumption.
Qed.

(** A non-empty result of the loop cleared the threshold, and its
    similarity and point are the ones the matcher produced. *)
Lemma poll_run_hit (imdata : pyref) (deadline threshold : Q)
  (t : list event) (r : outcome (option MatchResult)) :
  poll_run E imdata deadline threshold t r ->
  match r with
  | Return (Some m) =>
      float_lt (similarity m) threshold = false
      /\ exists cv target, fi_find E cv target = inr (similarity m, point m)
  | _ => True
  end.
Proof.
  induction 1; auto.
Qed.

(** Event counts over a whole run of the loop. *)
Lemma poll_run_counts (imdata : pyref) (deadline threshold : Q)
  (t : list event) (r : outcome (option MatchResult)) :
  poll_run E imdata deadline threshold t r ->
  count is_click t = 0
  /\ count is_sleep t = match r with Return (Some _) => 1 | _ => 0 end
  /\ count is_get t = (if is_url imdata then count is_imread t else 0)
  /\ count is_isfile t = (if is_path imdata then count is_imread t else 0)
  /\ count is_log t <= count is_find t
  /\ count is_find t <= count is_screenshot t
  /\ count is_screenshot t <= count is_imread t
  /\ match r with
     | Return _ =>
         count is_log t = count is_imread t
     | Raise _ => count is_imread t = S (count is_log t)
     | Diverge => count is_log t = count is_imread t
     end.
Proof.
  induction 1 as [t Ht | t t' body m Ht Hb Hfi Hs
                 | t t' body rest m r Ht Hb Hfi Hs Hrun IH
                 | t body e Ht Hb | ].
  - count_norm. destruct (is_url imdata), (is_path imdata); repeat split; auto.
  - apply match_events_counts in Hb.
    destruct Hb as (Hi & Hg & Hf & Hc & Hsl & Hl & Hle & Hfull).
    destruct (Hfull eq_refl) as [Hsh Hfd].
    count_norm.
    rewrite Hi, Hg, Hf, Hc, Hsl, Hl, Hsh, Hfd.
    destruct (is_url imdata), (is_path imdata); repeat split; lia.
  - apply match_events_counts in Hb.
    destruct Hb as (Hi & Hg & Hf & Hc & Hsl & Hl & Hle & Hfull).
    destruct (Hfull eq_refl) as [Hsh Hfd].
    destruct IH as (I1 & I2 & I3 & I4 & I5 & I6 & I7 & I8).
    count_norm.
    rewrite Hi, Hg, Hf, Hc, Hsl, Hl, Hsh, Hfd, I1, I2, I3, I4.
    destruct (is_url imdata), (is_path imdata), r as [[m'|]|e|];
      repeat split; lia.
  - apply match_events_counts in Hb.
    destruct Hb as (Hi & Hg & Hf & Hc & Hsl & Hl & Hle & Hfull).
    count_norm.
    rewrite Hi, Hg, Hf, Hc, Hsl, Hl.
    destruct (is_url imdata), (is_path imdata); repeat split; lia.
  - count_norm. destruct (is_url imdata), (is_path imdata); repeat split; auto.
Qed.

(** [__wait] reads the clock once, fixes the deadline, and polls. *)
Lemma wait_tier_shape (fuel : nat) (imdata : pyref) (timeout threshold : Q)
  (w w' : World) (r : outcome (option MatchResult)) :
  __wait E fuel imdata timeout threshold w = (r, w') ->
  exists t,
    trace w' = trace w ++ EvTime (clock E (ticks w)) :: t
    /\ poll_run E imdata (float_add E (clock E (ticks w)) timeout)
         threshold t r.
Proof.
  unfold __wait, bind, time_time. intros H.
  apply poll_shape in H. cbn [trace] in H.
  destruct H as (t & Ht & Hrun). exists t. split; [|exact Hrun].
  rewrite Ht, <- app_assoc. reflexivity.
Qed.

(** The loop ends once the clock has reached the deadline: if every reading
    from the [n]-th on is at or past the deadline, [n + 1] iterations are
    enough. *)
Lemma poll_terminates (imdata : pyref) (deadline threshold : Q) :
  forall (n fuel : nat) (w : World),
    n < fuel ->
    (forall k, ticks w + n <= k -> (deadline <= clock E k)%Q) ->
    fst (poll E fuel imdata deadline threshold w) <> Diverge.
Proof.
  induction n as [|n IH]; intros fuel w Hfuel Hclock;
    (destruct fuel as [|fuel]; [lia|]); rewrite poll_step.
  - assert (Hd : (deadline <= clock E (ticks w))%Q) by (apply Hclock; lia).
    apply Qltb_ge in Hd. rewrite Hd. discriminate.
  - destruct (Qltb (clock E (ticks w)) deadline); [|discriminate].
    destruct (match_ E imdata (tick E w)) as [rm w2] eqn:Hm.
    apply match_footprint in Hm. destruct Hm as (body & _ & Hk & Hd & _).
    destruct rm as [m|e|]; [|discriminate|congruence].
    destruct (float_lt (similarity m) threshold); [|discriminate].
    apply IH; [lia|]. intros k Hle. apply Hclock.
    unfold logged in Hle; cbn [ticks] in Hle. rewrite Hk in Hle.
    unfold tick, time_time in Hle; cbn [snd ticks] in Hle. lia.
Qed.

(** The budget only matters when it runs out: a run that ends is the same
    under any larger budget. *)
Lemma poll_fuel_mono (imdata : pyref) (deadline threshold : Q) :
  forall (fuel fuel' : nat) (w : World),
    fuel <= fuel' ->
    fst (poll E fuel imdata deadline threshold w) <> Diverge ->
    poll E fuel' imdata deadline threshold w
    = poll E fuel imdata deadline threshold w.
Proof.
  induction fuel as [|fuel IH]; intros fuel' w Hle Hend.
  - exfalso. apply Hend. reflexivity.
  - destruct fuel' as [|fuel']; [lia|].
    rewrite poll_step in Hend. rewrite !poll_step.
    destruct (Qltb (clock E (ticks w)) deadline); [|reflexivity].
    destruct (match_ E imdata (tick E w)) as [[m|e|] w2]; try reflexivity.
    destruct (float_lt (similarity m) threshold); [|reflexivity].
    apply IH; [lia | exact Hend].
Qed.

(** Every sleep of the loop is the settle delay. *)
Lemma poll_run_sleeps (imdata : pyref) (deadline threshold : Q)
  (t : list event) (r : outcome (option MatchResult)) :
  poll_run E imdata deadline threshold t r ->
  Forall (fun e => is_sleep e = true -> e = EvSleep (1#10)%Q) t.
Proof.
  assert (Hbody : forall c body, match_events E imdata c body ->
            Forall (fun e => is_sleep e = true -> e = EvSleep (1#10)%Q) body).
  { intros c body (k & tail & -> & Ht).
    constructor; [discriminate|]. apply Forall_app. split.
    - unfold imread_events. destruct imdata as [a|im|s]; [constructor ..|].
      destruct (String.prefix "data:image/" s); [constructor|].
      destruct (re_match_https s); [repeat constructor; discriminate|].
      destruct (os_path_isfile E k s); repeat constructor; discriminate.
    - destruct c; cbn in Ht;
        [subst tail | destruct Ht as [-> | [-> | [-> | ->]]]];
        repeat constructor; discriminate. }
  induction 1 as [t Ht | t t' body m Ht Hb Hfi Hs
                 | t t' body rest m r Ht Hb Hfi Hs Hrun IH
                 | t body e Ht Hb | ].
  - repeat constructor; discriminate.
  - constructor; [discriminate|]. apply Forall_app. split; [eapply Hbody; eauto|].
    repeat constructor; try discriminate.
  - constructor; [discriminate|]. apply Forall_app. split; [eapply Hbody; eauto|].
    constructor; [discriminate|]. constructor; [discriminate|]. exact IH.
  - constructor; [discriminate|]. eapply Hbody; eauto.
  - constructor.
Qed.

(** A result of the loop is the answer of the call of [ImageX.match] that
    closed its last cycle, and the loop returned right after the log line
    and the settle sleep of that cycle. *)
Lemma poll_result_from_cycle (imdata : pyref) (deadline threshold : Q) :
  forall (fuel : nat) (w w' : World) (m : MatchResult),
    poll E fuel imdata deadline threshold w = (Return (Some m), w') ->
    float_lt (similarity m) threshold = false
    /\ exists wc w2,
         match_ E imdata wc = (Return m, w2)
         /\ w' = slept (1#10)%Q (logged E deadline threshold m w2).
Proof.
  induction fuel as [|fuel IH]; intros w w' m H; [discriminate|].
  rewrite poll_step in H.
  destruct (Qltb (clock E (ticks w)) deadline); [|discriminate].
  destruct (match_ E imdata (tick E w)) as [[m0|e|] w2] eqn:Hm;
    try discriminate.
  destruct (float_lt (similarity m0) threshold) eqn:Hs.
  - exact (IH _ _ _ H).
  - inversion H; subst. split; [exact Hs|].
    exists (tick E w), w2. split; [exact Hm | reflexivity].
Qed.

(** How [wait] is put together from its two tiers. *)
Lemma wait_tiers (fuel : nat) (imdata : pyref) (timeout : Q) (w : World) :
  wait E fuel imdata timeout w =
  match __wait E fuel imdata timeout (8#10)%Q w with
  | (Return (Some _), w1) => __wait E fuel imdata timeout (9#10)%Q w1
  | (Return None, w1) => (Return None, w1)
  | (Raise e, w1) => (Raise e, w1)
  | (Diverge, w1) => (Diverge, w1)
  end.
Proof.
  unfold wait, bind.
  destruct (__wait E fuel imdata timeout (8#10)%Q w) as [[[m|]|e|] w1];
    reflexivity.
Qed.

End Runs.

(** ** The two-tier wait *)

(** C1, the claim as stated fails: the test of a tier is [sim < threshold],
    which a NaN score does not satisfy, so a matcher that scores NaN makes
    [wait] return a result whose similarity is not at least 0.9. *)
Lemma wait_returns_nan_score :
  exists m,
    fst (wait nan_env 3 (Ndarray [[[1%N]]]) 5%Q world0) = Return (Some m)
    /\ similarity m = NaN
    /\ float_ge (similarity m) (9#10)%Q = false.
Proof. vm_compute. eexists. repeat split. Qed.

(** C1 (as amended).  [wait] is a two-tier confirmation.  It runs one tier
    against 0.8; when that tier returns nothing (or raises) that is the
    outcome of [wait], and only when it returns a result does [wait] run a
    second tier against 0.9, from where the first one ended.  Each tier
    reads the clock afresh, takes that reading plus the same [timeout] as
    its deadline, and polls: a reading at or past the deadline ends the
    tier with nothing, a score below the threshold starts the next cycle,
    any other score ends the tier with that cycle's result.  So a result of
    [wait] is the answer of the last call of [ImageX.match], and its score
    is not below 0.9: it is at least 0.9, or it is NaN. *)
Theorem wait_two_tier (R : Type) (E : Env R) (fuel : nat) (imdata : pyref)
  (timeout : Q) (w : World) :
  wait E fuel imdata timeout w
  = second_tier E fuel imdata timeout
      (__wait E fuel imdata timeout (8#10)%Q w)
  /\ (forall threshold w0,
         __wait E fuel imdata timeout threshold w0
         = poll E fuel imdata (float_add E (clock E (ticks w0)) timeout)
             threshold (tick E w0))
  /\ (forall deadline threshold w0,
         poll E (S fuel) imdata deadline threshold w0
         = if Qltb (clock E (ticks w0)) deadline then
             match match_ E imdata (tick E w0) with
             | (Return m, w2) =>
                 if float_lt (similarity m) threshold
                 then poll E fuel imdata deadline threshold
                        (logged E deadline threshold m w2)
                 else (Return (Some m),
                       slept (1#10)%Q (logged E deadline threshold m w2))
             | (Raise e, w2) => (Raise e, w2)
             | (Diverge, w2) => (Diverge, w2)
             end
           else (Return None, tick E w0))
  /\ match fst (wait E fuel imdata timeout w) with
     | Return (Some m) =>
         float_lt (similarity m) (9#10)%Q = false
         /\ (similarity m = NaN \/ float_ge (similarity m) (9#10)%Q = true)
         /\ exists wc w2 deadline,
              match_ E imdata wc = (Return m, w2)
              /\ snd (wait E fuel imdata timeout w)
                 = slept (1#10)%Q (logged E deadline (9#10)%Q m w2)
     | _ => True
     end.
Proof.
  split; [|split; [|split]].
  - rewrite wait_tiers. unfold second_tier.
    destruct (__wait E fuel imdata timeout (8#10)%Q w) as [[[m|]|e|] w1];
      reflexivity.
  - intros threshold w0. reflexivity.
  - intros deadline threshold w0. apply poll_step.
  - rewrite wait_tiers.
    destruct (__wait E fuel imdata timeout (8#10)%Q w) as [[[m1|]|e|] w1];
      cbn [fst snd]; auto.
    destruct (__wait E fuel imdata timeout (9#10)%Q w1) as [r w'] eqn:H2.
    cbn [fst snd]. destruct r as [[m|]|e|]; auto.
    unfold __wait, bind, time_time in H2.
    apply poll_result_from_cycle in H2.
    destruct H2 as (Hs & wc & w2 & Hm & Hw).
    split; [exact Hs|]. split; [apply float_not_lt; exact Hs|].
    exists wc, w2, (float_add E (clock E (ticks w1)) timeout).
    split; assumption.
Qed.

(** C2. One tier of the wait.  [__wait] reads the clock once, takes that
    reading plus [timeout] as the deadline, and polls with this one
    deadline.  A cycle of the loop reads the clock: at or past the deadline
    the tier ends with nothing; below it the matching step runs, the clock
    is read for the log line, and then a score below the threshold starts
    the next cycle at once, with no sleep, while any other score (one that
    meets or exceeds the threshold is such a score) makes the loop sleep
    0.1 s and return that cycle's result.  An error of the matching step
    ends the tier.  So a tier sleeps once when it returns a result and not
    at all otherwise, every sleep is one of 0.1 s, and the loop is bounded:
    once the clock stays at or past the deadline, it ends. *)
Theorem wait_tier_cycles (R : Type) (E : Env R) (fuel : nat) (imdata : pyref)
  (timeout threshold : Q) (w : World) :
  let deadline := float_add E (clock E (ticks w)) timeout in
  let r := fst (__wait E fuel imdata timeout threshold w) in
  let w' := snd (__wait E fuel imdata timeout threshold w) in
  __wait E fuel imdata timeout threshold w
  = poll E fuel imdata deadline threshold (tick E w)
  /\ (forall w0,
         poll E (S fuel) imdata deadline threshold w0
         = if Qltb (clock E (ticks w0)) deadline then
             match match_ E imdata (tick E w0) with
             | (Return m, w2) =>
                 if float_lt (similarity m) threshold
                 then poll E fuel imdata deadline threshold
                        (logged E deadline threshold m w2)
                 else (Return (Some m),
                       slept (1#10)%Q (logged E deadline threshold m w2))
             | (Raise e, w2) => (Raise e, w2)
             | (Diverge, w2) => (Diverge, w2)
             end
           else (Return None, tick E w0))
  /\ (forall sim, float_ge sim threshold = true ->
                  float_lt sim threshold = false)
  /\ count is_sleep (added w w')
     = match r with Return (Some _) => 1 | _ => 0 end
  /\ Forall (fun e => is_sleep e = true -> e = EvSleep (1#10)%Q) (added w w')
  /\ (forall n,
         n < fuel ->
         (forall k, ticks w + 1 + n <= k -> (deadline <= clock E k)%Q) ->
         r <> Diverge).
Proof.
  cbv zeta.
  split; [reflexivity|]. split; [intros w0; apply poll_step|].
  split; [intros sim; apply float_ge_not_lt|].
  assert (Hshape : exists t,
             added w (snd (__wait E fuel imdata timeout threshold w))
             = EvTime (clock E (ticks w)) :: t
             /\ poll_run E imdata (float_add E (clock E (ticks w)) timeout)
                  threshold t
                  (fst (__wait E fuel imdata timeout threshold w))).
  { destruct (__wait E fuel imdata timeout threshold w) as [r w'] eqn:H.
    cbn [fst snd].
    apply wait_tier_shape in H. destruct H as (t & Ht & Hrun).
    exists t. rewrite (@added_app w w' _ Ht). split; [reflexivity | exact Hrun]. }
  destruct Hshape as (t & Ht & Hrun). rewrite Ht.
  split; [|split].
  - pose proof (poll_run_counts Hrun) as (_ & Hs & _).
    rewrite count_cons. cbn [is_sleep]. exact Hs.
  - constructor; [discriminate|]. exact (poll_run_sleeps Hrun).
  - intros n Hfuel Hclock. unfold __wait, bind, time_time.
    apply poll_terminates with (n := n); [exact Hfuel|].
    cbn [ticks]. intros k Hk. apply Hclock. lia.
Qed.

(** A tier with a miss, then a hit: the second cycle sleeps and returns. *)
Lemma wait_tier_cycles_witness :
  fst (__wait (script_env [50; 50; 50; 50]%N no_files never_decodable []) 3
         (Ndarray [[[1%N]]]) (3#10)%Q (8#10)%Q world0)
  <> Diverge
  /\ fst (__wait (script_env [50; 85]%N no_files never_decodable []) 2
            (Ndarray [[[1%N]]]) 1%Q (8#10)%Q world0)
     = Return (Some {| similarity := Finite (85#100)%Q;
                       point := (10, 20)%Z |})
  /\ count is_sleep
       (added world0
          (snd (__wait (script_env [50; 85]%N no_files never_decodable []) 2
                  (Ndarray [[[1%N]]]) 1%Q (8#10)%Q world0))) = 1.
Proof.
  split; [|split].
  - apply (proj2 (proj2 (proj2 (proj2 (proj2
             (@wait_tier_cycles Z
                (script_env [50; 50; 50; 50]%N no_files never_decodable [])
                3 (Ndarray [[[1%N]]]) (3#10)%Q (8#10)%Q world0))))) 2).
    + lia.
    + intros k Hk. cbn [ticks world0] in Hk.
      cbn [clock float_add script_env ticks world0].
      unfold Qle, Qdiv, Qmult, Qinv, Qplus, inject_Z. simpl. lia.
  - rewrite (proj1 (@wait_tier_cycles Z
                      (script_env [50; 85]%N no_files never_decodable [])
                      2 (Ndarray [[[1%N]]]) 1%Q (8#10)%Q world0)).
    rewrite (proj1 (proj2
               (@wait_tier_cycles Z
                  (script_env [50; 85]%N no_files never_decodable [])
                  1 (Ndarray [[[1%N]]]) 1%Q (8#10)%Q world0))
               (tick (script_env [50; 85]%N no_files never_decodable [])
                  world0)).
    vm_compute. reflexivity.
  - rewrite (proj1 (proj2 (proj2 (proj2
               (@wait_tier_cycles Z
                  (script_env [50; 85]%N no_files never_decodable [])
                  2 (Ndarray [[[1%N]]]) 1%Q (8#10)%Q world0))))).
    vm_compute. reflexivity.
Defined.

(** ** Events of a whole [wait] *)

Section WaitRuns.

Variable R : Type.
Variable E : Env R.

Lemma tier_balanced (fuel : nat) (imdata : pyref) (timeout threshold : Q)
  (w w' : World) (r : outcome (option MatchResult)) :
  __wait E fuel imdata timeout threshold w = (r, w') ->
  exists t, trace w' = trace w ++ t /\ balanced imdata r t.
Proof.
  intros H. apply wait_tier_shape in H. destruct H as (t & Ht & Hrun).
  exists (EvTime (clock E (ticks w)) :: t). split; [exact Ht|].
  apply poll_run_counts in Hrun.
  destruct Hrun as (H1 & _ & H3 & H4 & H5 & H6 & H7 & H8).
  unfold balanced. count_norm. cbn [Nat.add].
  repeat split; assumption.
Qed.

Lemma wait_balanced (fuel : nat) (imdata : pyref) (timeout : Q)
  (w w' : World) (r : outcome (option MatchResult)) :
  wait E fuel imdata timeout w = (r, w') ->
  exists t, trace w' = trace w ++ t /\ balanced imdata r t.
Proof.
  rewrite wait_tiers.
  destruct (__wait E fuel imdata timeout (8#10)%Q w) as [r1 w1] eqn:H1.
  apply tier_balanced in H1. destruct H1 as (t1 & Ht1 & B1).
  destruct r1 as [[m1|]|e|]; intros H.
  2,3,4: inversion H; subst; exists t1; split; assumption.
  apply tier_balanced in H. destruct H as (t2 & Ht2 & B2).
  exists (t1 ++ t2). split; [rewrite Ht2, Ht1, app_assoc; reflexivity|].
  unfold balanced in *. rewrite !count_app.
  destruct B1 as (A1 & A2 & A3 & A4 & A5 & A6 & A7).
  destruct B2 as (C1 & C2 & C3 & C4 & C5 & C6 & C7).
  rewrite A1, A2, A3, C1, C2, C3.
  destruct (is_url imdata), (is_path imdata), r as [[m|]|e|];
    repeat split; lia.
Qed.

End WaitRuns.

(** C3 (as amended).  [click] has three kinds of outcome, decided by what
    [wait] ended in.  When [wait] returned a result, [d.click] is called
    once, at the point of that result, and what it returns or raises is the
    outcome of [click].  When [wait] returned nothing, [click] raises
    [RuntimeError] and [d.click] is not called.  When [wait] itself raised
    (or never ended), that is the outcome of [click], again without a call
    of [d.click]. *)
Theorem click_outcomes (R : Type) (E : Env R) (fuel : nat) (imdata : pyref)
  (timeout : Q) (w : World) :
  let r1 := fst (wait E fuel imdata timeout w) in
  let w1 := snd (wait E fuel imdata timeout w) in
  let w' := snd (click E fuel imdata timeout w) in
  match r1 with
  | Return (Some m) =>
      click E fuel imdata timeout w
      = (match d_click E (ios w1) (fst (point m)) (snd (point m)) with
         | inl e => Raise e
         | inr v => Return v
         end,
         {| ticks := ticks w1; ios := S (ios w1);
            trace := trace w1 ++ [EvClick (fst (point m)) (snd (point m))] |})
      /\ count is_click (added w w') = 1
  | Return None =>
      click E fuel imdata timeout w = (Raise TargetNotFoundError, w1)
      /\ count is_click (added w w') = 0
  | Raise e =>
      click E fuel imdata timeout w = (Raise e, w1)
      /\ count is_click (added w w') = 0
  | Diverge =>
      click E fuel imdata timeout w = (Diverge, w1)
      /\ count is_click (added w w') = 0
  end.
Proof.
  cbv zeta. unfold click, bind.
  destruct (wait E fuel imdata timeout w) as [r1 w1] eqn:Hw. cbn [fst snd].
  apply wait_balanced in Hw. destruct Hw as (t & Ht & Hc & _).
  destruct r1 as [[m|]|e|]; cbn [fst snd raise].
  2,3,4: split; [reflexivity|]; rewrite (@added_app w w1 _ Ht); exact Hc.
  destruct (point m) as [x y]. unfold send_click, bind, io, lift.
  cbn [fst snd].
  destruct (d_click E (ios w1) x y) as [e|v]; cbn [fst snd raise ret];
    (split; [reflexivity|]);
    (erewrite added_app;
     [|cbn [trace]; rewrite Ht, <- app_assoc; reflexivity]);
    rewrite count_app, Hc; reflexivity.
Qed.

(** C3, the claim as stated fails: with a reference that is no buffer, no
    data URL, no URL and no file, [click] ends in the [IOError] of [imread],
    which is neither a click nor the [RuntimeError] of an empty wait. *)
Lemma click_third_outcome :
  fst (click (script_env [] no_files never_decodable []) 10
         (Str "no_such_file.png") 1%Q world0)
  = Raise (IOError "image read invalid data: no_such_file.png")
  /\ fst (wait (script_env [] no_files never_decodable []) 10
            (Str "no_such_file.png") 1%Q world0)
     <> Return None
  /\ count is_click
       (trace (snd (click (script_env [] no_files never_decodable []) 10
                      (Str "no_such_file.png") 1%Q world0))) = 0.
Proof. vm_compute. repeat split. discriminate. Qed.

(** C4 (as amended).  [wait] decodes the template reference again in every
    poll cycle: every call of [ImageX.match] starts by entering [imread]
    on the reference, before that cycle's frame capture.  So a [wait] that
    returns has entered [imread] as often as it captured a frame, scored a
    match and wrote a log line; a URL reference is fetched on each of these
    entries, and a path is looked up in the file system on each of them. *)
Theorem wait_decodes_every_cycle (R : Type) (E : Env R) (fuel : nat)
  (imdata : pyref) (timeout : Q) (w : World) :
  let r := fst (wait E fuel imdata timeout w) in
  let t := added w (snd (wait E fuel imdata timeout w)) in
  (exists rest, added w (snd (match_ E imdata w)) = EvImread imdata :: rest)
  /\ count is_screenshot t <= count is_imread t
  /\ count is_get t = (if is_url imdata then count is_imread t else 0)
  /\ count is_isfile t = (if is_path imdata then count is_imread t else 0)
  /\ match r with
     | Return _ =>
         count is_imread t = count is_log t
         /\ count is_screenshot t = count is_log t
         /\ count is_find t = count is_log t
     | _ => True
     end.
Proof.
  cbv zeta. split.
  { destruct (match_ E imdata w) as [rm wm] eqn:Hm. cbn [snd].
    apply match_footprint in Hm. destruct Hm as (body & Ht & _ & _ & Hb).
    rewrite (@added_app w wm _ Ht).
    assert (Hev : exists c, match_events E imdata c body)
      by (destruct rm as [m|e|]; [exists true; apply Hb | exists false; exact Hb ..]).
    destruct Hev as (c & k & tail & -> & _). eexists. reflexivity. }
  destruct (wait E fuel imdata timeout w) as [r w'] eqn:Hw. cbn [fst snd].
  apply wait_balanced in Hw. destruct Hw as (t & Ht & B).
  rewrite (@added_app w w' _ Ht).
  destruct B as (_ & B2 & B3 & B4 & B5 & B6 & B7).
  repeat split; try assumption.
  destruct r as [o|e|]; [|exact I|exact I]. lia.
Qed.

(** C4, the claim as stated fails: one [wait] on a URL reference that needs
    three poll cycles enters [imread] three times and fetches the URL three
    times. *)
Lemma wait_refetches_template :
  count is_imread
    (trace (snd (wait (script_env [0; 50; 0; 85; 0; 95]%N no_files
                         (fun _ => true) (list_byte_of_string "png"))
                   10 (Str "http://host/t.png") 5%Q world0))) = 3
  /\ count is_get
       (trace (snd (wait (script_env [0; 50; 0; 85; 0; 95]%N no_files
                            (fun _ => true) (list_byte_of_string "png"))
                      10 (Str "http://host/t.png") 5%Q world0))) = 3
  /\ exists m,
       fst (wait (script_env [0; 50; 0; 85; 0; 95]%N no_files
                    (fun _ => true) (list_byte_of_string "png"))
              10 (Str "http://host/t.png") 5%Q world0) = Return (Some m)
       /\ similarity m = Finite (95#100)%Q.
Proof. vm_compute. repeat split. eexists. split; reflexivity. Qed.

(** ** Image ingestion *)

(** C5. [imread] tries its cases in a fixed order: the two buffer types,
    then the [data:image/] prefix, then the [http://] or [https://] scheme,
    then [os.path.isfile]; the first case that applies decides, and the
    trace shows that the later ones are not consulted (no fetch for a data
    URL, no file-system lookup for a data URL or a URL).  A string that
    matches no case raises the [IOError] "image read invalid data". *)
Theorem imread_dispatch_order (R : Type) (E : Env R) (data : pyref)
  (w : World) :
  let w0 := {| ticks := ticks w; ios := ios w;
               trace := trace w ++ [EvImread data] |} in
  let r := fst (imread E data w) in
  let t := added w (snd (imread E data w)) in
  match data with
  | Ndarray a => imread E data w = (Return (Some a), w0)
  | Pillow im => imread E data w = (Return (Some (pil2cv E im)), w0)
  | Str s =>
      if String.prefix "data:image/" s then
        imread E data w = _open_data_url E s w0
        /\ t = [EvImread data]
      else if re_match_https s then
        imread E data w = _open_image_url E s w0
        /\ t = [EvImread data; EvGet s]
      else if os_path_isfile E (ios w) s then
        r = match cv2_imread E (S (ios w)) s with
            | Some im => Return (Some im)
            | None => Raise (DecodeError s)
            end
        /\ t = [EvImread data; EvIsFile s; EvCvImread s]
      else
        r = Raise (InvalidReferenceError s)
        /\ t = [EvImread data; EvIsFile s]
  end.
Proof.
  cbv zeta.
  pose proof (imread_footprint E data w) as F. cbv zeta in F.
  destruct F as (Ht & _). apply added_app in Ht. rewrite Ht. clear Ht.
  unfold imread_events.
  destruct data as [a|im|s]; try reflexivity.
  unfold imread, bind, emit. cbn [fst snd].
  destruct (String.prefix "data:image/" s); [split; reflexivity|].
  destruct (re_match_https s); [split; reflexivity|].
  unfold io. cbn [fst snd ios].
  destruct (os_path_isfile E (ios w) s); [|split; reflexivity].
  unfold bind. cbn [fst snd ios ticks trace].
  destruct (cv2_imread E (S (ios w)) s); split; reflexivity.
Qed.

(** C6, the code at a failing input: a URL whose body is not an image, and
    a data URL whose payload is not an image, make [imread] return [None]
    instead of raising. *)
Lemma imread_undecodable_returns_none :
  fst (imread (script_env [] no_files never_decodable
                 (list_byte_of_string "hi"))
         (Str "http://host/notes.txt") world0) = Return None
  /\ fst (imread (script_env [] no_files never_decodable [])
            (Str "data:image/png;base64,aGk=") world0) = Return None.
Proof. vm_compute. split; reflexivity. Qed.

(** C7, the claim as stated fails: a path that names no file raises the
    very error of a reference that matches no case. *)
Lemma missing_file_is_invalid_reference :
  ~ (forall (E : Env Z) (s : string) (w : World),
        is_path (Str s) = true ->
        os_path_isfile E (ios w) s = false ->
        exists e, fst (imread E (Str s) w) = Raise e
                  /\ e <> InvalidReferenceError s).
Proof.
  intros H.
  destruct (H (script_env [] no_files never_decodable []) "missing.png"%string
              world0 eq_refl eq_refl) as (e & He & Hne).
  vm_compute in He. inversion He; subst. apply Hne. reflexivity.
Qed.

(** C7 (as amended).  For a string that is neither a data URL nor a URL:
    when it names a file that [cv2.imread] cannot decode, [imread] raises
    the [IOError] "Image format error"; when it names no file, [imread]
    raises the [IOError] "image read invalid data", which is the error of a
    reference that matches no case, and differs from the former. *)
Theorem imread_path_errors (R : Type) (E : Env R) (s : string) (w : World) :
  is_path (Str s) = true ->
  (os_path_isfile E (ios w) s = true ->
   cv2_imread E (S (ios w)) s = None ->
   fst (imread E (Str s) w) = Raise (DecodeError s))
  /\ (os_path_isfile E (ios w) s = false ->
      fst (imread E (Str s) w) = Raise (InvalidReferenceError s))
  /\ DecodeError s <> InvalidReferenceError s.
Proof.
  unfold is_path. intros Hp.
  apply andb_true_iff in Hp. destruct Hp as [Hd Hu].
  apply negb_true_iff in Hd. apply negb_true_iff in Hu.
  unfold imread, bind, emit, io. cbn [fst snd ios].
  rewrite Hd, Hu. cbn [fst snd ios ticks trace].
  split; [|split].
  - intros Hf Hc. rewrite Hf. cbn [fst snd ios ticks trace].
    rewrite Hc. reflexivity.
  - intros Hf. rewrite Hf. reflexivity.
  - unfold DecodeError, InvalidReferenceError. cbn. discriminate.
Qed.

Lemma imread_path_errors_witness :
  fst (imread (script_env [] no_files never_decodable []) (Str "missing.png")
         world0)
  = Raise (InvalidReferenceError "missing.png")
  /\ DecodeError "missing.png" <> InvalidReferenceError "missing.png".
Proof.
  pose proof (@imread_path_errors Z
                (script_env [] no_files never_decodable []) "missing.png"
                world0 eq_refl) as H.
  destruct H as (_ & H2 & H3).
  split; [apply H2; reflexivity | exact H3].
Defined.

(** ** The similarity handed to the wait loop *)

Lemma wait_result_from_matcher (R : Type) (E : Env R) (fuel : nat)
  (imdata : pyref) (timeout : Q) (w : World) :
  match fst (wait E fuel imdata timeout w) with
  | Return (Some m) =>
      exists cv target, fi_find E cv target = inr (similarity m, point m)
  | _ => True
  end.
Proof.
  rewrite wait_tiers.
  destruct (__wait E fuel imdata timeout (8#10)%Q w) as [[[m1|]|e|] w1];
    cbn [fst]; auto.
  destruct (__wait E fuel imdata timeout (9#10)%Q w1) as [r w'] eqn:H2.
  cbn [fst]. apply wait_tier_shape in H2. destruct H2 as (t & _ & Hrun).
  apply poll_run_hit in Hrun. destruct r as [[m|]|e|]; auto. apply Hrun.
Qed.

(** C8, the claim as stated fails: the matcher scores 1.5, [ImageX.match]
    returns that score, and [wait] compares it with both thresholds and
    returns it. *)
Lemma match_keeps_out_of_range_similarity :
  (exists m,
      fst (match_ (script_env [150]%N no_files never_decodable [])
             (Ndarray [[[1%N]]]) world0) = Return m
      /\ similarity m = Finite (150#100)%Q
      /\ ~ in_unit_range (similarity m))
  /\ (exists m,
         fst (wait (script_env [150; 150]%N no_files never_decodable []) 10
                (Ndarray [[[1%N]]]) 5%Q world0) = Return (Some m)
         /\ similarity m = Finite (150#100)%Q
         /\ ~ in_unit_range (similarity m)).
Proof.
  split; vm_compute; eexists; (split; [reflexivity|]);
    (split; [reflexivity|]); intros [_ H]; apply H; reflexivity.
Qed.

(** C8 (as amended).  [ImageX.match] hands on the matcher's similarity
    unchanged, whatever its value: there is no range check and no clamping.
    So every result of [wait] carries a similarity the matcher produced,
    and it lies in [0,1] when all the matcher's scores do. *)
Theorem match_passes_similarity_through (R : Type) (E : Env R)
  (imdata : pyref) (fuel : nat) (timeout : Q) (w : World) :
  (forall cv w1 target sim pt,
      imread E imdata w = (Return cv, w1) ->
      fi_load_template E cv = inr tt ->
      d_screenshot E (ios w1) = inr target ->
      fi_find E cv target = inr (sim, pt) ->
      fst (match_ E imdata w) = Return {| similarity := sim; point := pt |})
  /\ match fst (wait E fuel imdata timeout w) with
     | Return (Some m) =>
         exists cv target, fi_find E cv target = inr (similarity m, point m)
     | _ => True
     end
  /\ ((forall cv target sim pt,
          fi_find E cv target = inr (sim, pt) -> in_unit_range sim) ->
      match fst (wait E fuel imdata timeout w) with
      | Return (Some m) => in_unit_range (similarity m)
      | _ => True
      end).
Proof.
  split; [|split].
  - intros cv w1 target sim pt Hi Hl Hs Hf.
    unfold match_, bind, emit, io, lift. rewrite Hi. cbn [fst snd ios].
    rewrite Hl. cbn [ret fst snd ios]. rewrite Hs. cbn [ret fst snd].
    rewrite Hf. reflexivity.
  - apply wait_result_from_matcher.
  - intros Hrange.
    pose proof (wait_result_from_matcher E fuel imdata timeout w) as H.
    destruct (fst (wait E fuel imdata timeout w)) as [[m|]|e|]; auto.
    destruct H as (cv & target & Hf). exact (Hrange _ _ _ _ Hf).
Qed.

Lemma match_passes_similarity_through_witness :
  fst (match_ (script_env [95]%N no_files never_decodable [])
         (Ndarray [[[1%N]]]) world0)
  = Return {| similarity := Finite (inject_Z (Z.of_N 95) / 100)%Q;
              point := (10, 20)%Z |}.
Proof.
  apply (proj1 (@match_passes_similarity_through Z
                  (script_env [95]%N no_files never_decodable [])
                  (Ndarray [[[1%N]]]) 0 0%Q world0)
           (Some [[[1%N]]])
           {| ticks := 0; ios := 0; trace := [EvImread (Ndarray [[[1%N]]])] |}
           [[[95%N]]]);
    reflexivity.
Defined.

(** ** Non-positive time-outs *)

(** C9. With a time-out that is zero or negative, and a clock that does not
    run backwards between its first two readings, [wait] returns [None]
    after exactly two clock readings: one to fix the deadline, one for the
    deadline check.  Nothing else happens: no decode, no frame capture, no
    match, no sleep, and the second tier is not entered. *)
Theorem wait_nonpositive_timeout (R : Type) (E : Env R) (fuel : nat)
  (imdata : pyref) (timeout : Q) (w : World) :
  (timeout <= 0)%Q ->
  (clock E (ticks w) <= clock E (S (ticks w)))%Q ->
  wait E (S fuel) imdata timeout w
  = (Return None,
     {| ticks := S (S (ticks w)); ios := ios w;
        trace := trace w ++ [EvTime (clock E (ticks w));
                             EvTime (clock E (S (ticks w)))] |}).
Proof.
  intros Hto Hmono. rewrite wait_tiers.
  unfold __wait, bind. unfold time_time at 1. rewrite poll_step.
  cbn [ticks].
  assert (Hd : Qltb (clock E (S (ticks w)))
                 (float_add E (clock E (ticks w)) timeout) = false).
  { apply Qltb_ge. apply Qle_trans with (clock E (ticks w)); [|exact Hmono].
    apply float_add_nonpos. exact Hto. }
  rewrite Hd. unfold tick, time_time. cbn [snd ticks ios trace].
  rewrite <- app_assoc. reflexivity.
Qed.

Lemma wait_nonpositive_timeout_witness :
  wait (script_env [95; 95]%N no_files never_decodable []) 1
    (Str "http://host/t.png") (-(1#2))%Q world0
  = (Return None,
     {| ticks := 2; ios := 0;
        trace := [EvTime (clock (script_env [95; 95]%N no_files
                                   never_decodable []) 0);
                  EvTime (clock (script_env [95; 95]%N no_files
                                   never_decodable []) 1)] |}).
Proof.
  apply (@wait_nonpositive_timeout Z
           (script_env [95; 95]%N no_files never_decodable []) 0
           (Str "http://host/t.png") (-(1#2))%Q world0).
  - vm_compute. discriminate.
  - vm_compute. discriminate.
Defined.

(** ** Where the deadline is consulted *)

Create HintDb agree.

Section Agreement.

Variable R : Type.
Variable E : Env R.

Lemma agree_ret (A : Type) (a : A) : agree (ret a) (ret a).
Proof. intros w1 w2 H. split; [reflexivity | exact H]. Qed.

Lemma agree_raise (A : Type) (e : exn) : agree (@raise A e) (raise e).
Proof. intros w1 w2 H. split; [reflexivity | exact H]. Qed.

Lemma agree_lift (A : Type) (r : exn + A) : agree (lift r) (lift r).
Proof. destruct r; [apply agree_raise | apply agree_ret]. Qed.

Lemma agree_emit (e1 e2 : event) : agree (emit e1) (emit e2).
Proof. intros w1 w2 H. split; [reflexivity | exact H]. Qed.

Lemma agree_io (A : Type) (e1 e2 : event) (f : nat -> A) :
  agree (io e1 f) (io e2 f).
Proof.
  intros w1 w2 [Ht Hi]. unfold io, same_counters. cbn. rewrite Hi.
  repeat split; auto.
Qed.

Lemma agree_bind (A B : Type) (c1 c2 : M A) (k1 k2 : A -> M B) :
  agree c1 c2 -> (forall a, agree (k1 a) (k2 a)) ->
  agree (bind c1 k1) (bind c2 k2).
Proof.
  intros Hc Hk w1 w2 Hw. unfold bind.
  destruct (Hc w1 w2 Hw) as [Hr Hs].
  destruct (c1 w1) as [r1 v1], (c2 w2) as [r2 v2]. cbn [fst snd] in *.
  subst r2. destruct r1 as [a|e|]; [apply Hk; exact Hs | split; auto ..].
Qed.

#[local] Hint Resolve agree_ret agree_raise agree_lift agree_emit agree_io
  : agree.

(** [imread] and [ImageX.match] never look at the clock or at the trace. *)
Lemma imread_agree (data : pyref) : agree (imread E data) (imread E data).
Proof.
  unfold imread. apply agree_bind; [auto with agree|]. intros _.
  destruct data as [a|im|s]; auto with agree.
  destruct (String.prefix "data:image/" s).
  - unfold _open_data_url.
    destruct (py_find s "base64," =? -1)%Z; auto with agree.
    repeat (apply agree_bind; [auto with agree|]; intros); auto with agree.
  - destruct (re_match_https s).
    + unfold _open_image_url.
      repeat (apply agree_bind; [auto with agree|]; intros); auto with agree.
    + apply agree_bind; [auto with agree|]. intros [|]; auto with agree.
      apply agree_bind; [auto with agree|]. intros [a|]; auto with agree.
Qed.

Lemma match_agree (imdata : pyref) :
  agree (match_ E imdata) (match_ E imdata).
Proof.
  unfold match_.
  apply agree_bind; [apply imread_agree|]. intros cv.
  apply agree_bind; [auto with agree|]. intros _.
  apply agree_bind; [auto with agree|]. intros _.
  apply agree_bind.
  { apply agree_bind; [auto with agree|]. intros; auto with agree. }
  intros target.
  apply agree_bind; [auto with agree|]. intros _.
  apply agree_bind; [auto with agree|]. intros result. auto with agree.
Qed.

(** The outcome of the loop depends on the clock only through the readings
    that open the cycles: the readings in between go to the log. *)
Lemma poll_clock_irrelevant (imdata : pyref) (deadline threshold : Q)
  (c : nat -> Q) :
  forall (fuel : nat) (w1 w2 : World),
    same_counters w1 w2 ->
    (forall j, c (ticks w1 + 2 * j) = clock E (ticks w1 + 2 * j)) ->
    fst (poll (with_clock E c) fuel imdata deadline threshold w1)
    = fst (poll E fuel imdata deadline threshold w2).
Proof.
  induction fuel as [|fuel IH]; intros w1 w2 Hw Hc; [reflexivity|].
  rewrite !poll_step.
  destruct Hw as [Ht Hi].
  change (clock (with_clock E c)) with c.
  pose proof (Hc 0) as H0. rewrite Nat.mul_0_r, Nat.add_0_r in H0.
  rewrite H0, Ht.
  destruct (Qltb (clock E (ticks w2)) deadline); [|reflexivity].
  change (match_ (with_clock E c) imdata) with (match_ E imdata).
  assert (Hs : same_counters (tick (with_clock E c) w1) (tick E w2)).
  { unfold tick, time_time, same_counters. cbn. auto. }
  destruct (match_agree imdata Hs) as [Hr Hs'].
  destruct (match_ E imdata (tick (with_clock E c) w1)) as [r1 v1] eqn:M1.
  destruct (match_ E imdata (tick E w2)) as [r2 v2] eqn:M2.
  cbn [fst snd] in Hr, Hs'. subst r2.
  destruct r1 as [m|e|]; try reflexivity.
  destruct (float_lt (similarity m) threshold); [|reflexivity].
  apply match_footprint in M1. destruct M1 as (_ & _ & Hk1 & _).
  apply IH.
  - destruct Hs' as [Hs1 Hs2]. unfold logged, same_counters. cbn.
    auto.
  - intros j. unfold logged. cbn [ticks]. rewrite Hk1.
    unfold tick, time_time. cbn [snd ticks].
    replace (S (S (ticks w1)) + 2 * j) with (ticks w1 + 2 * (S j)) by lia.
    apply Hc.
Qed.

End Agreement.

(** C10. The deadline is consulted only when a poll cycle starts.  A cycle
    that starts below the deadline and whose score is not below the
    threshold (a score that reaches the threshold is not below it) returns
    its result after the settle sleep, whatever the clock shows after the
    match, also a time past the deadline.  And the outcome of the
    loop is the same under any other clock that shows the same times at the
    starts of the cycles. *)
Theorem poll_deadline_checked_at_cycle_start (R : Type) (E : Env R)
  (fuel : nat) (imdata : pyref) (deadline threshold : Q) (w : World) :
  (forall m w2,
      (clock E (ticks w) < deadline)%Q ->
      match_ E imdata (tick E w) = (Return m, w2) ->
      float_lt (similarity m) threshold = false ->
      poll E (S fuel) imdata deadline threshold w
      = (Return (Some m), slept (1#10)%Q (logged E deadline threshold m w2)))
  /\ (forall c,
         (forall j, c (ticks w + 2 * j) = clock E (ticks w + 2 * j)) ->
         fst (poll (with_clock E c) fuel imdata deadline threshold w)
         = fst (poll E fuel imdata deadline threshold w)).
Proof.
  split.
  - intros m w2 Hnow Hm Hs. rewrite poll_step.
    apply Qltb_lt in Hnow.
    rewrite Hnow, Hm, Hs. reflexivity.
  - intros c Hc. apply poll_clock_irrelevant; [split; reflexivity | exact Hc].
Qed.

Lemma poll_deadline_checked_at_cycle_start_witness :
  fst (poll (script_env [95]%N no_files never_decodable []) 1
         (Ndarray [[[1%N]]]) (15#100)%Q (8#10)%Q
         {| ticks := 1; ios := 0; trace := [] |})
  = Return (Some {| similarity := Finite (inject_Z (Z.of_N 95) / 100)%Q;
                    point := (10, 20)%Z |})
  /\ (15#100 <= clock (script_env [95]%N no_files never_decodable []) 2)%Q
  /\ fst (poll (with_clock (script_env [50; 95]%N no_files never_decodable [])
                  (fun k => if Nat.odd k
                            then clock (script_env [50; 95]%N no_files
                                          never_decodable []) k
                            else 1000%Q))
            3 (Ndarray [[[1%N]]]) (1#1)%Q (8#10)%Q
            {| ticks := 1; ios := 0; trace := [] |})
     = fst (poll (script_env [50; 95]%N no_files never_decodable [])
              3 (Ndarray [[[1%N]]]) (1#1)%Q (8#10)%Q
              {| ticks := 1; ios := 0; trace := [] |}).
Proof.
  split; [|split].
  - erewrite (proj1 (@poll_deadline_checked_at_cycle_start Z
                       (script_env [95]%N no_files never_decodable []) 0
                       (Ndarray [[[1%N]]]) (15#100)%Q (8#10)%Q
                       {| ticks := 1; ios := 0; trace := [] |})
                {| similarity := Finite (inject_Z (Z.of_N 95) / 100)%Q;
                   point := (10, 20)%Z |}).
    + reflexivity.
    + vm_compute. reflexivity.
    + reflexivity.
    + vm_compute. reflexivity.
  - vm_compute. discriminate.
  - apply (proj2 (@poll_deadline_checked_at_cycle_start Z
                    (script_env [50; 95]%N no_files never_decodable []) 3
                    (Ndarray [[[1%N]]]) (1#1)%Q (8#10)%Q
                    {| ticks := 1; ios := 0; trace := [] |})).
    intros j. cbn [ticks]. rewrite Nat.odd_add_mul_2. reflexivity.
Defined.

(** * Further properties of the module *)

(** ** Channel order *)

Lemma reverse_channels_involutive (a : ndarray) :
  reverse_channels (reverse_channels a) = a.
Proof.
  unfold reverse_channels. rewrite map_map.
  rewrite <- (map_id a) at 2. apply map_ext. intros row.
  rewrite map_map. rewrite <- (map_id row) at 2. apply map_ext.
  intros px. apply rev_involutive.
Qed.

(** X1. [cv2pil] followed by [pil2cv] gives the array back, for an array
    that pillow itself stores and reads back unchanged; and [pil2cv]
    followed by [cv2pil] gives the image built from the RGB samples. *)
Theorem pil2cv_cv2pil_round_trip (R : Type) (E : Env R)
  (fromarray : ndarray -> PilImage) (a : ndarray) (im : PilImage) :
  pil_rgb_array E (fromarray (reverse_channels a)) = reverse_channels a ->
  pil2cv E (cv2pil fromarray a) = a
  /\ cv2pil fromarray (pil2cv E im) = fromarray (pil_rgb_array E im).
Proof.
  intros Hpil. unfold pil2cv, cv2pil. split.
  - rewrite Hpil. apply reverse_channels_involutive.
  - rewrite reverse_channels_involutive. reflexivity.
Qed.

Lemma pil2cv_cv2pil_round_trip_witness :
  pil2cv (script_env [] no_files never_decodable [])
    (cv2pil rgb_fromarray [[[1; 2; 3]; [4; 5; 6]]]%N)
  = [[[1; 2; 3]; [4; 5; 6]]]%N
  /\ cv2pil rgb_fromarray
       (pil2cv (script_env [] no_files never_decodable [])
          (rgb_fromarray [[[1; 2; 3]]]%N))
     = rgb_fromarray [[[1; 2; 3]]]%N.
Proof.
  apply (@pil2cv_cv2pil_round_trip Z
           (script_env [] no_files never_decodable []) rgb_fromarray
           [[[1; 2; 3]; [4; 5; 6]]]%N (rgb_fromarray [[[1; 2; 3]]]%N)).
  reflexivity.
Defined.

(** ** The marker of a data URL *)

Lemma substring_full (s : string) : substring 0 (String.length s) s = s.
Proof. induction s as [|c s IH]; simpl; [reflexivity | rewrite IH; reflexivity]. Qed.

Lemma substring_add (s : string) :
  forall n a b,
    substring n (a + b) s = (substring n a s ++ substring (n + a) b s)%string.
Proof.
  induction s as [|c s IH]; intros n a b.
  - destruct n, a, b; reflexivity.
  - destruct n as [|n].
    + destruct a as [|a]; [reflexivity|].
      simpl. rewrite (IH 0 a b). reflexivity.
    + simpl. apply IH.
Qed.

Lemma substring_cut (s : string) :
  forall n,
    s = (substring 0 n s ++ substring n (String.length s - n) s)%string.
Proof.
  induction s as [|c s IH]; intros n.
  - destruct n; reflexivity.
  - destruct n as [|n].
    + simpl. rewrite substring_full. reflexivity.
    + simpl. rewrite <- IH. reflexivity.
Qed.

Lemma substring_length_fits (s : string) :
  forall n m,
    0 < m -> String.length (substring n m s) = m -> n + m <= String.length s.
Proof.
  induction s as [|c s IH]; intros n m Hm Hl.
  - destruct n, m; simpl in Hl; lia.
  - destruct n as [|n].
    + destruct m as [|m]; [lia|]. simpl in Hl. injection Hl as Hl.
      destruct m as [|m]; [simpl; lia|].
      specialize (IH 0 (S m)). simpl in *. apply IH in Hl; lia.
    + simpl in Hl. apply IH in Hl; [simpl; lia | exact Hm].
Qed.

(** X2. When a data URL holds the marker [base64,], the payload decoded is
    the text after the first occurrence of the marker, whatever precedes
    it: the URL is head, marker, payload, the marker does not occur
    earlier, and the outcome is that of decoding the payload. *)
Theorem open_data_url_splits_at_marker (R : Type) (E : Env R)
  (data : string) (n : nat) (w : World) :
  py_find data "base64," = Z.of_nat n ->
  let payload := py_slice_from data (Z.of_nat n + 7) in
  data = (py_slice_to data n ++ "base64," ++ payload)%string
  /\ (forall p, p < n -> substring p 7 data <> "base64,"%string)
  /\ _open_data_url E data w
     = (match base64_decodestring E payload with
        | inl e => Raise e
        | inr raw_data =>
            match cv2_imdecode E raw_data with
            | inl e => Raise e
            | inr image => Return image
            end
        end, w).
Proof.
  intros Hfind. cbv zeta. unfold py_find in Hfind.
  destruct (index 0 "base64," data) as [k|] eqn:Hidx; [|lia].
  apply Nat2Z.inj in Hfind. subst k.
  pose proof (index_correct1 _ _ _ _ Hidx) as Hat.
  change (String.length "base64,") with 7 in Hat.
  assert (Hfit : n + 7 <= String.length data).
  { apply substring_length_fits; [lia|]. rewrite Hat. reflexivity. }
  split; [|split].
  - unfold py_slice_to, py_slice_from.
    replace (Z.to_nat (Z.of_nat n + 7)) with (n + 7) by lia.
    rewrite <- Hat at 1.
    rewrite <- substring_add.
    replace (7 + (String.length data - (n + 7))) with (String.length data - n)
      by lia.
    apply substring_cut.
  - intros p Hp. apply (index_correct2 _ _ _ _ Hidx); lia.
  - unfold _open_data_url, py_find. rewrite Hidx.
    destruct (Z.of_nat n =? -1)%Z eqn:Hneg; [lia|].
    change (Z.of_nat (String.length "base64,")) with 7%Z.
    unfold bind, lift.
    destruct (base64_decodestring E _) as [e|raw]; [reflexivity|].
    cbn [ret]. destruct (cv2_imdecode E raw) as [e|im]; reflexivity.
Qed.

Lemma open_data_url_splits_at_marker_witness :
  "data:image/png;charset=x;base64,aGk="%string
  = (py_slice_to "data:image/png;charset=x;base64,aGk=" 25
       ++ "base64,"
       ++ py_slice_from "data:image/png;charset=x;base64,aGk=" (25 + 7))%string
  /\ py_slice_from "data:image/png;charset=x;base64,aGk=" (25 + 7)
     = "aGk="%string.
Proof.
  split; [|reflexivity].
  exact (proj1 (@open_data_url_splits_at_marker Z
                  (script_env [] no_files never_decodable [])
                  "data:image/png;charset=x;base64,aGk=" 25 world0 eq_refl)).
Defined.

(** X3. A data URL in which [base64,] occurs nowhere is refused by
    [imread] with the [IOError] that quotes its head: a prefix of the URL
    of at most 20 characters.  Nothing is decoded and no collaborator is
    called. *)
Theorem imread_data_url_without_marker (R : Type) (E : Env R)
  (data : string) (w : World) :
  String.prefix "data:image/" data = true ->
  (forall p, substring p 7 data <> "base64,"%string) ->
  imread E (Str data) w
  = (Raise (IOError ("data url is invalid, head " ++ py_slice_to data 20)),
     {| ticks := ticks w; ios := ios w;
        trace := trace w ++ [EvImread (Str data)] |})
  /\ String.length (py_slice_to data 20) <= 20
  /\ String.prefix (py_slice_to data 20) data = true.
Proof.
  intros Hd Hno.
  assert (Hidx : index 0 "base64," data = None).
  { destruct (index 0 "base64," data) as [k|] eqn:Hk; [|reflexivity].
    exfalso. apply (Hno k). exact (index_correct1 _ _ _ _ Hk). }
  split; [|split].
  - unfold imread, bind, emit. rewrite Hd.
    unfold _open_data_url, py_find. rewrite Hidx. reflexivity.
  - unfold py_slice_to. generalize 20. clear. induction data as [|c s IH]; intros k.
    + destruct k; simpl; lia.
    + destruct k as [|k]; simpl; [lia|]. specialize (IH k). lia.
  - unfold py_slice_to. generalize 20. clear. induction data as [|c s IH]; intros k.
    + destruct k; reflexivity.
    + destruct k as [|k]; simpl; [reflexivity|].
      destruct (ascii_dec c c) as [_|Hc]; [apply IH | congruence].
Qed.

Lemma imread_data_url_without_marker_witness :
  fst (imread (script_env [] no_files never_decodable [])
         (Str "data:image/jpeg,abcd") world0)
  = Raise (IOError "data url is invalid, head data:image/jpeg,abcd").
Proof.
  refine (f_equal fst
            (proj1 (@imread_data_url_without_marker Z
                      (script_env [] no_files never_decodable [])
                      "data:image/jpeg,abcd" world0 eq_refl _))).
  intros p.
  do 21 (destruct p as [|p]; [simpl; discriminate|]).
  simpl. discriminate.
Defined.

(** ** The mark drawn by [draw_point] *)

(** X4. For an image of size [w] x [h], [draw_point] draws two red lines
    of width 5 through [(x, y)] across the whole image, then a red ellipse
    of radius [min(w, h) // 40] and a white one of radius
    [min(w, h) // 50], both centred on [(x, y)].  The white one is never
    larger than the red one, and on an image whose shorter side is under 40
    pixels both collapse to the point itself. *)
Theorem draw_point_marks_nested (w h x y : Z) :
  (0 <= w)%Z -> (0 <= h)%Z ->
  let r_red := (Z.min w h / 40)%Z in
  let r_white := (Z.min w h / 50)%Z in
  draw_point (w, h) x y
  = [DrawLine (x, 0, x, h)%Z "red" 5;
     DrawLine (0, y, w, y)%Z "red" 5;
     DrawEllipse (x - r_red, y - r_red, x + r_red, y + r_red)%Z "red";
     DrawEllipse (x - r_white, y - r_white, x + r_white, y + r_white)%Z
       "white"]
  /\ (0 <= r_white <= r_red)%Z
  /\ (40 * r_red <= Z.min w h < 40 * r_red + 40)%Z
  /\ (50 * r_white <= Z.min w h < 50 * r_white + 50)%Z
  /\ (Z.min w h < 40 -> r_red = 0 /\ r_white = 0)%Z.
Proof.
  intros Hw Hh. cbv zeta.
  assert (Hm : (0 <= Z.min w h)%Z) by lia.
  split; [reflexivity|]. split; [|split; [|split]].
  - split; [apply Z.div_pos; lia|].
    apply Z.div_le_compat_l; lia.
  - pose proof (Z.mul_div_le (Z.min w h) 40 ltac:(lia)).
    pose proof (Z.mul_succ_div_gt (Z.min w h) 40 ltac:(lia)). lia.
  - pose proof (Z.mul_div_le (Z.min w h) 50 ltac:(lia)).
    pose proof (Z.mul_succ_div_gt (Z.min w h) 50 ltac:(lia)). lia.
  - intros Hs. rewrite !Z.div_small by lia. split; reflexivity.
Qed.

Lemma draw_point_marks_nested_witness :
  draw_point (1080, 1920)%Z 100 200
  = [DrawLine (100, 0, 100, 1920)%Z "red" 5;
     DrawLine (0, 200, 1080, 200)%Z "red" 5;
     DrawEllipse (100 - 27, 200 - 27, 100 + 27, 200 + 27)%Z "red";
     DrawEllipse (100 - 21, 200 - 21, 100 + 21, 200 + 21)%Z "white"].
Proof.
  exact (proj1 (@draw_point_marks_nested 1080 1920 100 200
                  ltac:(lia) ltac:(lia))%Z).
Defined.

(** ** More on the loop *)

Section LoopFacts.

Variable R : Type.
Variable E : Env R.

Lemma last_event_app (t u : list event) :
  u <> [] -> last_event (t ++ u) = last_event u.
Proof.
  intros Hu. unfold last_event. rewrite rev_app_distr.
  destruct (rev u) as [|e r] eqn:Hr; [|reflexivity].
  exfalso. apply Hu. rewrite <- (rev_involutive u), Hr. reflexivity.
Qed.

Lemma last_event_cons (e : event) (u : list event) :
  u <> [] -> last_event (e :: u) = last_event u.
Proof. intros Hu. apply (last_event_app [e] Hu). Qed.

(** How a run of the loop ends. *)
Lemma poll_run_end (imdata : pyref) (deadline threshold : Q)
  (t : list event) (r : outcome (option MatchResult)) :
  poll_run E imdata deadline threshold t r ->
  match r with
  | Return (Some m) => last_event t = Some (EvSleep (1#10)%Q)
  | Return None =>
      exists t', last_event t = Some (EvTime t') /\ (deadline <= t')%Q
  | _ => True
  end.
Proof.
  induction 1 as [t Ht | t t' body m Ht Hb Hfi Hs
                 | t t' body rest m r Ht Hb Hfi Hs Hrun IH
                 | t body e Ht Hb | ]; try exact I.
  - exists t. split; [reflexivity | exact Ht].
  - rewrite last_event_cons by (destruct body; discriminate).
    rewrite last_event_app by discriminate. reflexivity.
  - assert (Hrest : match r with Return _ => rest <> [] | _ => True end).
    { destruct r as [[m'|]|e|]; try exact I;
        inversion Hrun; subst; discriminate. }
    destruct r as [[m'|]|e|]; try exact I.
    + rewrite last_event_cons by (destruct body; discriminate).
      rewrite last_event_app by discriminate.
      rewrite (last_event_app [_; _] Hrest). exact IH.
    + destruct IH as (tl & Hl & Hd). exists tl. split; [|exact Hd].
      rewrite last_event_cons by (destruct body; discriminate).
      rewrite last_event_app by discriminate.
      rewrite (last_event_app [_; _] Hrest). exact Hl.
Qed.

(** An error that ends the loop was raised by a call of [ImageX.match]. *)
Lemma poll_raise_from_match (imdata : pyref) (deadline threshold : Q) :
  forall (fuel : nat) (w : World) (e : exn),
    fst (poll E fuel imdata deadline threshold w) = Raise e ->
    exists w0, fst (match_ E imdata w0) = Raise e.
Proof.
  induction fuel as [|fuel IH]; intros w e H; [discriminate|].
  rewrite poll_step in H.
  destruct (Qltb (clock E (ticks w)) deadline); [|discriminate].
  destruct (match_ E imdata (tick E w)) as [[m|e'|] w2] eqn:Hm;
    [|exists (tick E w); rewrite Hm; cbn [fst] in *; inversion H; reflexivity
     | discriminate].
  destruct (float_lt (similarity m) threshold); [|discriminate].
  exact (IH _ _ H).
Qed.

(** The number of match calls is bounded by the clock: when every reading
    from the [2n]-th on is at or past the deadline, the loop calls
    [ImageX.match] at most [n] times. *)
Lemma poll_cycle_bound (imdata : pyref) (deadline threshold : Q) :
  forall (fuel n : nat) (w w' : World) (r : outcome (option MatchResult)),
    (forall k, ticks w + 2 * n <= k -> (deadline <= clock E k)%Q) ->
    poll E fuel imdata deadline threshold w = (r, w') ->
    exists t, trace w' = trace w ++ t /\ count is_imread t <= n.
Proof.
  induction fuel as [|fuel IH]; intros n w w' r Hclock H.
  - inversion H; subst. exists []. rewrite app_nil_r. split; [reflexivity|].
    rewrite count_nil. lia.
  - rewrite poll_step in H.
    destruct (Qltb (clock E (ticks w)) deadline) eqn:Hnow.
    2:{ inversion H; subst. exists [EvTime (clock E (ticks w))].
        split; [reflexivity|]. count_norm. lia. }
    destruct n as [|n].
    { exfalso. apply Qltb_lt in Hnow.
      apply (Qlt_not_le _ _ Hnow). apply Hclock. lia. }
    destruct (match_ E imdata (tick E w)) as [rm w2] eqn:Hm.
    apply match_footprint in Hm. destruct Hm as (body & Ht & Hk & Hd & Hb).
    unfold tick, time_time in Ht, Hk; cbn [snd trace ticks] in Ht, Hk.
    assert (Hone : count is_imread body = 1).
    { destruct rm as [m|e|];
        [destruct Hb as [Hb _]| |];
        apply match_events_counts in Hb; apply Hb. }
    destruct rm as [m|e|].
    + destruct (float_lt (similarity m) threshold).
      * apply (IH n) in H.
        -- destruct H as (rest & Hr & Hc).
           exists (EvTime (clock E (ticks w)) :: body ++
                     [EvTime (clock E (ticks w2));
                      EvLog (similarity m) threshold
                        (float_sub E deadline (clock E (ticks w2)))] ++ rest).
           split.
           ++ rewrite Hr. unfold logged; cbn [trace]. rewrite Ht.
              rewrite <- !app_assoc. reflexivity.
           ++ count_norm. rewrite Hone. lia.
        -- intros k Hle. apply Hclock. unfold logged in Hle.
           cbn [ticks] in Hle. lia.
      * inversion H; subst.
        exists (EvTime (clock E (ticks w)) :: body ++
                  [EvTime (clock E (ticks w2));
                   EvLog (similarity m) threshold
                     (float_sub E deadline (clock E (ticks w2)));
                   EvSleep (1#10)%Q]).
        split.
        -- unfold slept, logged; cbn [trace]. rewrite Ht.
           rewrite <- !app_assoc. reflexivity.
        -- count_norm. rewrite Hone. lia.
    + inversion H; subst. exists (EvTime (clock E (ticks w)) :: body).
      split; [rewrite Ht, <- app_assoc; reflexivity|].
      count_norm. rewrite Hone. lia.
    + congruence.
Qed.

Lemma tier_fuel_mono (imdata : pyref) (timeout threshold : Q)
  (fuel fuel' : nat) (w : World) :
  fuel <= fuel' ->
  fst (__wait E fuel imdata timeout threshold w) <> Diverge ->
  __wait E fuel' imdata timeout threshold w
  = __wait E fuel imdata timeout threshold w.
Proof.
  unfold __wait, bind, time_time. intros Hle Hend.
  apply poll_fuel_mono; assumption.
Qed.

Lemma tier_terminates (imdata : pyref) (timeout threshold : Q) (w : World) :
  (forall b, exists N, forall k, N <= k -> (b <= clock E k)%Q) ->
  exists fuel, fst (__wait E fuel imdata timeout threshold w) <> Diverge.
Proof.
  intros Hclock.
  destruct (Hclock (float_add E (clock E (ticks w)) timeout)) as (N & HN).
  exists (S N). unfold __wait, bind, time_time.
  apply poll_terminates with (n := N); [lia|].
  intros k Hk. apply HN. lia.
Qed.

Lemma wait_fuel_mono (imdata : pyref) (timeout : Q) (fuel fuel' : nat)
  (w : World) :
  fuel <= fuel' ->
  fst (wait E fuel imdata timeout w) <> Diverge ->
  wait E fuel' imdata timeout w = wait E fuel imdata timeout w.
Proof.
  intros Hle. rewrite !wait_tiers.
  destruct (__wait E fuel imdata timeout (8#10)%Q w) as [r1 w1] eqn:H1.
  intros Hend.
  assert (Hd1 : r1 <> Diverge) by (intros ->; apply Hend; reflexivity).
  rewrite (@tier_fuel_mono imdata timeout (8#10)%Q fuel fuel' w Hle)
    by (rewrite H1; exact Hd1).
  rewrite H1. destruct r1 as [[m1|]|e|]; try reflexivity.
  apply tier_fuel_mono; assumption.
Qed.

End LoopFacts.

(** ** What [imread] and [ImageX.match] touch *)

Lemma imread_events_counts (R : Type) (E : Env R) (data : pyref) (k : nat) :
  let ev := imread_events E data k in
  count is_screenshot ev = 0 /\ count is_click ev = 0
  /\ count is_sleep ev = 0
  /\ count is_get ev = (if is_url data then 1 else 0)
  /\ count is_isfile ev = (if is_path data then 1 else 0)
  /\ count is_cvimread ev <= count is_isfile ev
  /\ List.length ev
     = count is_get ev + count is_isfile ev + count is_cvimread ev.
Proof.
  unfold imread_events, is_url, is_path.
  destruct data as [a|im|s]; [cbn; repeat split; auto ..|].
  destruct (String.prefix "data:image/" s); [cbn; repeat split; auto|].
  destruct (re_match_https s); [cbn; repeat split; auto|].
  destruct (os_path_isfile E k s); cbn; repeat split; auto.
Qed.

(** X5. [imread] calls a collaborator only for a URL (one fetch) and for a
    path (one lookup, then at most one read of the file); a buffer or a
    data URL causes no call at all.  It never reads the clock, captures a
    frame, clicks or sleeps. *)
Theorem imread_effects (R : Type) (E : Env R) (data : pyref) (w : World) :
  let w' := snd (imread E data w) in
  let t := added w w' in
  ticks w' = ticks w
  /\ count is_screenshot t = 0 /\ count is_click t = 0
  /\ count is_sleep t = 0
  /\ count is_get t = (if is_url data then 1 else 0)
  /\ count is_isfile t = (if is_path data then 1 else 0)
  /\ count is_cvimread t <= count is_isfile t
  /\ ios w' = ios w + count is_get t + count is_isfile t
              + count is_cvimread t.
Proof.
  cbv zeta.
  destruct (imread_footprint E data w) as (Ht & Hk & Hi & _).
  rewrite (@added_app w _ _ Ht).
  destruct (imread_events_counts E data (ios w))
    as (H1 & H2 & H3 & H4 & H5 & H6 & H7).
  rewrite !count_cons.
  cbn [is_screenshot is_click is_sleep is_get is_isfile is_cvimread Nat.add].
  repeat split; try assumption. rewrite Hi, H7. lia.
Qed.

(** X6. A call of [ImageX.match] enters [imread] once, captures at most
    one frame and scores at most one match, exactly one of each when it
    returns; when [imread] raises, [match] raises the same error and the
    device is not asked for a frame.  [match] never reads the clock, logs,
    sleeps or clicks. *)
Theorem match_effects (R : Type) (E : Env R) (imdata : pyref) (w : World) :
  let r := fst (match_ E imdata w) in
  let w' := snd (match_ E imdata w) in
  let t := added w w' in
  ticks w' = ticks w
  /\ count is_click t = 0 /\ count is_sleep t = 0 /\ count is_log t = 0
  /\ count is_imread t = 1
  /\ count is_find t <= count is_screenshot t <= 1
  /\ match r with
     | Return _ => count is_screenshot t = 1 /\ count is_find t = 1
     | _ => True
     end
  /\ match fst (imread E imdata w) with
     | Raise e => r = Raise e /\ count is_screenshot t = 0
     | _ => True
     end.
Proof.
  cbv zeta.
  destruct (match_ E imdata w) as [r w'] eqn:Hm. cbn [fst snd].
  pose proof Hm as Hm'.
  apply match_footprint in Hm. destruct Hm as (body & Ht & Hk & Hd & Hb).
  rewrite (@added_app w w' _ Ht).
  assert (Hc : exists c, match_events E imdata c body
                         /\ (c = true <-> exists m, r = Return m)).
  { destruct r as [m|e|].
    - exists true. split; [apply Hb|]. split; eauto.
    - exists false. split; [exact Hb|].
      split; [discriminate | intros (m & Hr); discriminate].
    - congruence. }
  destruct Hc as (c & Hev & Hcr).
  apply match_events_counts in Hev.
  destruct Hev as (Hi & _ & _ & Hcl & Hsl & Hl & Hle & Hfull).
  split; [exact Hk|]. split; [exact Hcl|]. split; [exact Hsl|].
  split; [exact Hl|]. split; [exact Hi|]. split; [exact Hle|]. split.
  - destruct r as [m|e|]; try exact I. apply Hfull. apply Hcr. eauto.
  - destruct (imread_footprint E imdata w) as (Hti & _ & _ & _).
    unfold match_, bind in Hm'.
    destruct (imread E imdata w) as [[cv|e|] w1]; try exact I.
    cbn [fst snd] in *. inversion Hm'; subst. split; [reflexivity|].
    rewrite Hti in Ht. apply app_inv_head in Ht. subst body.
    rewrite count_cons. cbn [is_screenshot].
    apply (imread_events_counts E imdata (ios w)).
Qed.

(** ** Errors, termination and bounds of [wait] and [click] *)

(** X7. [wait] raises nothing of its own: an error that ends [wait] was
    raised by a call of [ImageX.match].  An error that ends [click] is such
    an error, or the [RuntimeError] of an empty wait, or what [d.click]
    raised. *)
Theorem wait_raises_only_match_errors (R : Type) (E : Env R) (fuel : nat)
  (imdata : pyref) (timeout : Q) (w : World) :
  (forall e,
      fst (wait E fuel imdata timeout w) = Raise e ->
      exists w0, fst (match_ E imdata w0) = Raise e)
  /\ (forall e,
         fst (click E fuel imdata timeout w) = Raise e ->
         e = TargetNotFoundError
         \/ (exists w0, fst (match_ E imdata w0) = Raise e)
         \/ (exists k x y, d_click E k x y = inl e)).
Proof.
  assert (Hwait : forall e,
             fst (wait E fuel imdata timeout w) = Raise e ->
             exists w0, fst (match_ E imdata w0) = Raise e).
  { intros e. rewrite wait_tiers. unfold __wait at 1, bind at 1.
    destruct (time_time E w) as [[t0| |] w0] eqn:Ht0;
      [|discriminate Ht0 ..].
    destruct (poll E fuel imdata (float_add E t0 timeout) (8 # 10) w0)
      as [r1 w1] eqn:H1.
    destruct r1 as [[m1|]|e1|]; cbn [fst]; try discriminate.
    - unfold __wait, bind.
      destruct (time_time E w1) as [[t1| |] w1'] eqn:Ht1;
        [|discriminate Ht1 ..].
      apply poll_raise_from_match.
    - intros He. inversion He; subst.
      apply (@poll_raise_from_match R E imdata (float_add E t0 timeout) (8 # 10)
               fuel w0).
      rewrite H1. reflexivity. }
  split; [exact Hwait|].
  intros e. unfold click, bind.
  destruct (wait E fuel imdata timeout w) as [[[m|]|e1|] w1] eqn:Hw;
    cbn [fst] in *.
  - destruct (point m) as [x y]. unfold send_click, bind, io, lift.
    cbn [fst snd].
    destruct (d_click E (ios w1) x y) as [e2|v] eqn:Hc; cbn [fst raise ret];
      [|discriminate].
    intros He. inversion He; subst. right. right. eauto.
  - intros He. inversion He. left. reflexivity.
  - intros He. inversion He; subst. right. left. apply Hwait. reflexivity.
  - discriminate.
Qed.

Lemma wait_raises_only_match_errors_witness :
  IOError "image read invalid data: no_such_file.png" = TargetNotFoundError
  \/ (exists w0,
         fst (match_ (script_env [] no_files never_decodable [])
                (Str "no_such_file.png") w0)
         = Raise (IOError "image read invalid data: no_such_file.png"))
  \/ (exists k x y,
         d_click (script_env [] no_files never_decodable []) k x y
         = inl (IOError "image read invalid data: no_such_file.png")).
Proof.
  apply (proj2 (@wait_raises_only_match_errors Z
                  (script_env [] no_files never_decodable []) 10
                  (Str "no_such_file.png") 1%Q world0)).
  reflexivity.
Defined.

(** X8. Under a clock that grows without bound, [wait] and [click] end:
    some budget is enough, no larger budget changes the outcome of [wait],
    and [click] ends as well. *)
Theorem wait_terminates (R : Type) (E : Env R) (imdata : pyref)
  (timeout : Q) (w : World) :
  (forall b, exists N, forall k, N <= k -> (b <= clock E k)%Q) ->
  exists fuel,
    forall fuel', fuel <= fuel' ->
      fst (wait E fuel' imdata timeout w) <> Diverge
      /\ wait E fuel' imdata timeout w = wait E fuel imdata timeout w
      /\ fst (click E fuel' imdata timeout w) <> Diverge.
Proof.
  intros Hclock.
  assert (Hw : exists fuel, fst (wait E fuel imdata timeout w) <> Diverge).
  { destruct (tier_terminates E imdata timeout (8#10)%Q w Hclock)
      as (f1 & Hf1).
    destruct (__wait E f1 imdata timeout (8#10)%Q w) as [r1 w1] eqn:H1.
    cbn [fst] in Hf1.
    destruct (tier_terminates E imdata timeout (9#10)%Q w1 Hclock)
      as (f2 & Hf2).
    exists (Nat.max f1 f2). rewrite wait_tiers.
    rewrite (@tier_fuel_mono R E imdata timeout (8#10)%Q f1 (Nat.max f1 f2) w)
      by (try lia; rewrite H1; exact Hf1).
    rewrite H1. destruct r1 as [[m1|]|e|]; try discriminate; [|congruence].
    rewrite (@tier_fuel_mono R E imdata timeout (9#10)%Q f2 (Nat.max f1 f2) w1)
      by (try lia; exact Hf2).
    exact Hf2. }
  destruct Hw as (fuel & Hfuel). exists fuel. intros fuel' Hle.
  pose proof (@wait_fuel_mono R E imdata timeout fuel fuel' w Hle Hfuel) as Heq.
  split; [rewrite Heq; exact Hfuel|]. split; [exact Heq|].
  unfold click, bind. rewrite Heq.
  destruct (wait E fuel imdata timeout w) as [[[m|]|e|] w1]; cbn [fst] in *;
    try discriminate; [|congruence].
  destruct (point m) as [x y]. unfold send_click, bind, io, lift.
  destruct (d_click E (ios w1) x y); discriminate.
Qed.

Lemma script_clock_unbounded (script : list N) (files : string -> bool)
  (decodable : list Byte.byte -> bool) (body : list Byte.byte) (b : Q) :
  exists N, forall k, N <= k ->
    (b <= clock (script_env script files decodable body) k)%Q.
Proof.
  destruct b as [p q]. exists (Z.to_nat (10 * Z.max p 0)). intros k Hk.
  cbn [clock script_env].
  unfold Qle, Qdiv, Qmult, Qinv, inject_Z. cbn [Qnum Qden].
  assert (Hq : (1 <= Z.pos q)%Z) by lia.
  assert (Hk' : (10 * Z.max p 0 <= Z.of_nat k)%Z) by lia.
  change (Z.pos (1 * 10)) with 10%Z. nia.
Qed.

Lemma wait_terminates_witness :
  exists fuel,
    forall fuel', fuel <= fuel' ->
      fst (wait (script_env [50; 50]%N no_files never_decodable []) fuel'
             (Ndarray [[[1%N]]]) 5%Q world0) <> Diverge
      /\ wait (script_env [50; 50]%N no_files never_decodable []) fuel'
           (Ndarray [[[1%N]]]) 5%Q world0
         = wait (script_env [50; 50]%N no_files never_decodable []) fuel
             (Ndarray [[[1%N]]]) 5%Q world0
      /\ fst (click (script_env [50; 50]%N no_files never_decodable []) fuel'
                (Ndarray [[[1%N]]]) 5%Q world0) <> Diverge.
Proof.
  apply (@wait_terminates Z
           (script_env [50; 50]%N no_files never_decodable [])
           (Ndarray [[[1%N]]]) 5%Q world0).
  apply script_clock_unbounded.
Defined.

(** X9. The retries of a tier are bounded by the clock: when every clock
    reading from the [(1 + 2n)]-th after the call on is at or past the
    deadline, the tier calls [ImageX.match] at most [n] times, so it decodes
    the reference and captures a frame at most [n] times, whatever the
    budget and the outcome. *)
Theorem wait_tier_cycle_bound (R : Type) (E : Env R) (fuel : nat)
  (imdata : pyref) (timeout threshold : Q) (w : World) (n : nat) :
  (forall k, ticks w + 1 + 2 * n <= k ->
             (float_add E (clock E (ticks w)) timeout <= clock E k)%Q) ->
  let t := added w (snd (__wait E fuel imdata timeout threshold w)) in
  count is_imread t <= n /\ count is_screenshot t <= n.
Proof.
  intros Hclock. cbv zeta.
  destruct (__wait E fuel imdata timeout threshold w) as [r w'] eqn:H.
  cbn [snd].
  pose proof (tier_balanced _ _ _ _ _ _ H) as (t & Ht & B).
  rewrite (@added_app w w' _ Ht).
  destruct B as (_ & _ & _ & _ & _ & Hshot & _).
  assert (Hc : count is_imread t <= n); [|lia].
  unfold __wait, bind, time_time in H.
  apply (@poll_cycle_bound R E imdata _ _ fuel n) in H.
  - destruct H as (t' & Ht' & Hn). cbn [trace] in Ht'.
    rewrite Ht, <- app_assoc in Ht'. apply app_inv_head in Ht'.
    subst t. count_norm. exact Hn.
  - cbn [ticks]. intros k Hk. apply Hclock. lia.
Qed.

Lemma wait_tier_cycle_bound_witness :
  count is_imread
    (added world0
       (snd (__wait (script_env [50; 50; 50]%N no_files never_decodable [])
               7 (Ndarray [[[1%N]]]) (3#10)%Q (8#10)%Q world0))) <= 1
  /\ count is_screenshot
       (added world0
          (snd (__wait (script_env [50; 50; 50]%N no_files never_decodable [])
                  7 (Ndarray [[[1%N]]]) (3#10)%Q (8#10)%Q world0))) <= 1.
Proof.
  apply (@wait_tier_cycle_bound Z
           (script_env [50; 50; 50]%N no_files never_decodable []) 7
           (Ndarray [[[1%N]]]) (3#10)%Q (8#10)%Q world0 1).
  intros k Hk. cbn [ticks world0] in Hk. cbn [clock script_env ticks world0].
  unfold Qle, Qdiv, Qmult, Qinv, Qplus, inject_Z. simpl. lia.
Defined.

(** ** Results of a tier, sleeps, and the point clicked *)

Lemma count_zero_not_in (p : event -> bool) (t : list event) (e : event) :
  count p t = 0 -> In e t -> p e = false.
Proof.
  induction t as [|a t IH]; intros Hc Hin; [contradiction|].
  rewrite count_cons in Hc. destruct Hin as [-> | Hin].
  - destruct (p e); [discriminate | reflexivity].
  - apply IH; [lia | exact Hin].
Qed.

(** What a result of [wait] satisfies: it is the answer of the call of
    [ImageX.match] that closed the last cycle of the second tier, its score
    is not below 0.9, and [wait] returned right after that cycle's log line
    and settle sleep. *)
Lemma wait_result_cleared (R : Type) (E : Env R) (fuel : nat)
  (imdata : pyref) (timeout : Q) (w w' : World) (m : MatchResult) :
  wait E fuel imdata timeout w = (Return (Some m), w') ->
  float_lt (similarity m) (9#10)%Q = false
  /\ exists wc w2 deadline,
       match_ E imdata wc = (Return m, w2)
       /\ w' = slept (1#10)%Q (logged E deadline (9#10)%Q m w2).
Proof.
  rewrite wait_tiers.
  destruct (__wait E fuel imdata timeout (8#10)%Q w) as [[[m1|]|e|] w1];
    try discriminate.
  unfold __wait, bind, time_time. intros H2.
  apply poll_result_from_cycle in H2.
  destruct H2 as (Hs & wc & w2 & Hm & Hw).
  split; [exact Hs|].
  exists wc, w2, (float_add E (clock E (ticks w1)) timeout).
  split; assumption.
Qed.

(** X10. How a tier ends, for any threshold.  A result is the answer of
    the call of [ImageX.match] that closed the last cycle, its score is not
    below the threshold (it is at least the threshold, or NaN), and the
    last thing the tier did was the settle sleep of 0.1 s.  No result is
    reported only after a clock reading at or past the deadline the tier
    computed, and that reading is the last thing the tier did.  Conversely
    a tier whose first deadline check fails returns nothing, and a tier
    whose first cycle scores not below the threshold returns that cycle's
    result. *)
Theorem wait_tier_outcome (R : Type) (E : Env R) (fuel : nat)
  (imdata : pyref) (timeout threshold : Q) (w : World) :
  let deadline := float_add E (clock E (ticks w)) timeout in
  let r := fst (__wait E fuel imdata timeout threshold w) in
  let w' := snd (__wait E fuel imdata timeout threshold w) in
  match r with
  | Return (Some m) =>
      float_lt (similarity m) threshold = false
      /\ (similarity m = NaN \/ float_ge (similarity m) threshold = true)
      /\ (exists wc w2,
             match_ E imdata wc = (Return m, w2)
             /\ w' = slept (1#10)%Q (logged E deadline threshold m w2))
      /\ last_event (added w w') = Some (EvSleep (1#10)%Q)
  | Return None =>
      exists t', last_event (added w w') = Some (EvTime t')
                 /\ (deadline <= t')%Q
  | _ => True
  end
  /\ (0 < fuel ->
      (deadline <= clock E (S (ticks w)))%Q ->
      r = Return None)
  /\ (forall m w2,
         0 < fuel ->
         (clock E (S (ticks w)) < deadline)%Q ->
         match_ E imdata (tick E (tick E w)) = (Return m, w2) ->
         float_lt (similarity m) threshold = false ->
         r = Return (Some m)).
Proof.
  cbv zeta. split; [|split].
  - destruct (__wait E fuel imdata timeout threshold w) as [r w'] eqn:H.
    cbn [fst snd].
    pose proof H as H'.
    apply wait_tier_shape in H. destruct H as (t & Ht & Hrun).
    rewrite (@added_app w w' _ Ht).
    pose proof (poll_run_end Hrun) as Hend.
    assert (Hne : match r with Return _ => t <> [] | _ => True end).
    { destruct r as [[m|]|e|]; try exact I;
        inversion Hrun; subst; discriminate. }
    destruct r as [[m|]|e|]; try exact I.
    + unfold __wait, bind, time_time in H'.
      apply poll_result_from_cycle in H'. destruct H' as (Hs & Hcyc).
      split; [exact Hs|]. split; [apply float_not_lt; exact Hs|].
      split; [exact Hcyc|].
      rewrite last_event_cons by exact Hne. exact Hend.
    + destruct Hend as (t' & Hl & Hd). exists t'.
      split; [|exact Hd]. rewrite last_event_cons by exact Hne. exact Hl.
  - intros Hfuel Hd. destruct fuel as [|fuel]; [lia|].
    unfold __wait, bind. unfold time_time at 1. rewrite poll_step.
    cbn [ticks]. apply Qltb_ge in Hd. rewrite Hd. reflexivity.
  - intros m w2 Hfuel Hd Hm Hs. destruct fuel as [|fuel]; [lia|].
    unfold __wait, bind. unfold time_time at 1. rewrite poll_step.
    cbn [ticks]. apply Qltb_lt in Hd. rewrite Hd.
    change (tick E {| ticks := S (ticks w); ios := ios w;
                      trace := trace w ++ [EvTime (clock E (ticks w))] |})
      with (tick E (tick E w)).
    rewrite Hm, Hs. reflexivity.
Qed.

Lemma wait_tier_outcome_witness :
  fst (__wait (script_env [95]%N no_files never_decodable []) 1
         (Ndarray [[[1%N]]]) 1%Q (9#10)%Q world0)
  = Return (Some {| similarity := Finite (inject_Z (Z.of_N 95) / 100)%Q;
                    point := (10, 20)%Z |})
  /\ fst (__wait (script_env [95]%N no_files never_decodable []) 1
            (Ndarray [[[1%N]]]) 0%Q (9#10)%Q world0)
     = Return None.
Proof.
  split.
  - eapply (proj2 (proj2 (@wait_tier_outcome Z
                            (script_env [95]%N no_files never_decodable [])
                            1 (Ndarray [[[1%N]]]) 1%Q (9#10)%Q world0))).
    + lia.
    + vm_compute. reflexivity.
    + vm_compute. reflexivity.
    + vm_compute. reflexivity.
  - apply (proj1 (proj2 (@wait_tier_outcome Z
                           (script_env [95]%N no_files never_decodable [])
                           1 (Ndarray [[[1%N]]]) 0%Q (9#10)%Q world0))).
    + lia.
    + vm_compute. discriminate.
Defined.

(** X11. The settle sleeps of a [wait]: every sleep is one of 0.1 s; a
    [wait] that returns a result slept exactly twice, once per tier, and
    any other [wait] slept at most once. *)
Theorem wait_settle_sleeps (R : Type) (E : Env R) (fuel : nat)
  (imdata : pyref) (timeout : Q) (w : World) :
  let r := fst (wait E fuel imdata timeout w) in
  let t := added w (snd (wait E fuel imdata timeout w)) in
  Forall (fun e => is_sleep e = true -> e = EvSleep (1#10)%Q) t
  /\ match r with
     | Return (Some _) => count is_sleep t = 2
     | _ => count is_sleep t <= 1
     end.
Proof.
  cbv zeta. rewrite wait_tiers.
  destruct (__wait E fuel imdata timeout (8#10)%Q w) as [r1 w1] eqn:H1.
  apply wait_tier_shape in H1. destruct H1 as (t1 & Ht1 & Hrun1).
  pose proof (poll_run_sleeps Hrun1) as Hs1.
  pose proof (poll_run_counts Hrun1) as (_ & Hc1 & _).
  assert (Hall1 : Forall (fun e => is_sleep e = true -> e = EvSleep (1#10)%Q)
                    (EvTime (clock E (ticks w)) :: t1))
    by (constructor; [discriminate | exact Hs1]).
  destruct r1 as [[m1|]|e|]; cbn [fst snd].
  2,3,4: rewrite (@added_app w w1 _ Ht1); split; [exact Hall1|];
         count_norm; lia.
  destruct (__wait E fuel imdata timeout (9#10)%Q w1) as [r w'] eqn:H2.
  cbn [fst snd].
  apply wait_tier_shape in H2. destruct H2 as (t2 & Ht2 & Hrun2).
  pose proof (poll_run_sleeps Hrun2) as Hs2.
  pose proof (poll_run_counts Hrun2) as (_ & Hc2 & _).
  assert (Ht : trace w' = trace w ++ (EvTime (clock E (ticks w)) :: t1)
                            ++ EvTime (clock E (ticks w1)) :: t2)
    by (rewrite Ht2, Ht1, <- app_assoc; reflexivity).
  rewrite (@added_app w w' _ Ht). split.
  - apply Forall_app. split; [exact Hall1|].
    constructor; [discriminate | exact Hs2].
  - count_norm. rewrite Hc1, Hc2. destruct r as [[m|]|e|]; lia.
Qed.

(** X12. [click] only ever clicks at the point of the result of [wait]:
    every click event of a [click] call carries the point returned by the
    call of [ImageX.match] that closed the last cycle of [wait], whose score
    was not below 0.9 (at least 0.9, or NaN), and the click comes right
    after the settle sleep of that cycle. *)
Theorem click_only_at_scored_point (R : Type) (E : Env R) (fuel : nat)
  (imdata : pyref) (timeout : Q) (w : World) (x y : Z) :
  In (EvClick x y) (added w (snd (click E fuel imdata timeout w))) ->
  exists m wc w2 deadline,
    match_ E imdata wc = (Return m, w2)
    /\ point m = (x, y)
    /\ float_lt (similarity m) (9#10)%Q = false
    /\ (similarity m = NaN \/ float_ge (similarity m) (9#10)%Q = true)
    /\ wait E fuel imdata timeout w
       = (Return (Some m), slept (1#10)%Q (logged E deadline (9#10)%Q m w2))
    /\ trace (snd (click E fuel imdata timeout w))
       = trace (slept (1#10)%Q (logged E deadline (9#10)%Q m w2))
           ++ [EvClick x y].
Proof.
  unfold click, bind.
  destruct (wait E fuel imdata timeout w) as [r1 w1] eqn:Hw.
  pose proof (wait_balanced _ _ _ _ _ Hw) as (t & Ht & Hc & _).
  assert (Hno : In (EvClick x y) t -> False).
  { intros Hin. pose proof (count_zero_not_in is_click t _ Hc Hin) as Hf.
    discriminate Hf. }
  destruct r1 as [[m|]|e|]; cbn [snd raise].
  2,3,4: rewrite (@added_app w w1 _ Ht); intros Hin; destruct (Hno Hin).
  apply wait_result_cleared in Hw.
  destruct Hw as (Hsim & wc & w2 & d & Hm & Hw1).
  destruct (point m) as [px py] eqn:Hp.
  unfold send_click, bind, io, lift.
  assert (Hadd : forall wf : World,
             trace wf = trace w1 ++ [EvClick px py] ->
             In (EvClick x y) (added w wf) ->
             (px, py) = (x, y)).
  { intros wf Ho. erewrite added_app
      by (rewrite Ho, Ht, <- app_assoc; reflexivity).
    intros Hin. apply in_app_or in Hin. destruct Hin as [Hin | Hin];
      [destruct (Hno Hin)|].
    destruct Hin as [Heq | []]. inversion Heq; subst. reflexivity. }
  cbn [fst snd].
  destruct (d_click E (ios w1) px py) as [e|v]; cbn [fst snd raise ret];
    intros Hin;
    (apply Hadd in Hin; [|reflexivity]);
    inversion Hin; subst x y;
    exists m, wc, w2, d;
    (split; [exact Hm|]); (split; [exact Hp|]); (split; [exact Hsim|]);
    (split; [apply float_not_lt; exact Hsim|]);
    (split; [rewrite Hw1; reflexivity|]); rewrite <- Hw1; reflexivity.
Qed.

Lemma click_only_at_scored_point_witness :
  exists m wc w2 deadline,
    match_ (script_env [50; 85; 95]%N no_files never_decodable [])
      (Ndarray [[[1%N]]]) wc = (Return m, w2)
    /\ point m = (10, 20)%Z
    /\ float_lt (similarity m) (9#10)%Q = false
    /\ (similarity m = NaN \/ float_ge (similarity m) (9#10)%Q = true)
    /\ wait (script_env [50; 85; 95]%N no_files never_decodable []) 10
         (Ndarray [[[1%N]]]) 5%Q world0
       = (Return (Some m), slept (1#10)%Q
            (logged (script_env [50; 85; 95]%N no_files never_decodable [])
               deadline (9#10)%Q m w2))
    /\ trace (snd (click (script_env [50; 85; 95]%N no_files
                          never_decodable []) 10
                     (Ndarray [[[1%N]]]) 5%Q world0))
       = trace (slept (1#10)%Q
                  (logged (script_env [50; 85; 95]%N no_files
                             never_decodable [])
                     deadline (9#10)%Q m w2))
           ++ [EvClick 10 20].
Proof.
  apply (@click_only_at_scored_point Z
           (script_env [50; 85; 95]%N no_files never_decodable []) 10
           (Ndarray [[[1%N]]]) 5%Q world0 10 20).
  vm_compute. do 25 right. left. reflexivity.
Defined.

(** X13. [click] with a time-out that is zero or negative, under a clock
    that does not run backwards between its first two readings, raises the
    [RuntimeError] of an empty wait after two clock readings, for every
    reference, valid or not: the reference is not decoded, no frame is
    captured and the device is not clicked. *)
Theorem click_nonpositive_timeout (R : Type) (E : Env R) (fuel : nat)
  (imdata : pyref) (timeout : Q) (w : World) :
  (timeout <= 0)%Q ->
  (clock E (ticks w) <= clock E (S (ticks w)))%Q ->
  click E (S fuel) imdata timeout w
  = (Raise (RuntimeError "image object not found"),
     {| ticks := S (S (ticks w)); ios := ios w;
        trace := trace w ++ [EvTime (clock E (ticks w));
                             EvTime (clock E (S (ticks w)))] |}).
Proof.
  intros Hto Hmono. unfold click, bind. rewrite wait_tiers.
  unfold __wait, bind. unfold time_time at 1. rewrite poll_step.
  cbn [ticks].
  assert (Hd : Qltb (clock E (S (ticks w)))
                 (float_add E (clock E (ticks w)) timeout) = false).
  { apply Qltb_ge. apply Qle_trans with (clock E (ticks w)); [|exact Hmono].
    apply float_add_nonpos. exact Hto. }
  rewrite Hd. unfold tick, time_time. cbn [snd ticks ios trace raise].
  rewrite <- app_assoc. reflexivity.
Qed.

Lemma click_nonpositive_timeout_witness :
  click (script_env [95; 95]%N no_files never_decodable []) 1
    (Str "no_such_file.png") 0%Q world0
  = (Raise (RuntimeError "image object not found"),
     {| ticks := 2; ios := 0;
        trace := [EvTime (clock (script_env [95; 95]%N no_files
                                   never_decodable []) 0);
                  EvTime (clock (script_env [95; 95]%N no_files
                                   never_decodable []) 1)] |}).
Proof.
  apply (@click_nonpositive_timeout Z
           (script_env [95; 95]%N no_files never_decodable []) 0
           (Str "no_such_file.png") 0%Q world0).
  - vm_compute. discriminate.
  - vm_compute. discriminate.
Defined.
